(** * import_wallet.py: the wallet marker writer

    A shallow embedding of [src/import_wallet.py] together with a model of
    the parts of the Python runtime it calls on a POSIX host:
    [os.path.expanduser], [os.path.join], [os.makedirs], [open(.., "w")],
    [file.write] and [print].

    The file system is a finite map from normalised absolute paths (lists of
    names, root first) to nodes.  It has directories and regular files; it
    has no symbolic links, no permission bits and no resource limits (length
    of a path, free space, depth of the interpreter's stack), so the
    failures it produces are the structural ones: a missing or non-directory
    path component, an existing entry, an embedded NUL. *)

From Stdlib Require Import Ascii String.
From stdpp Require Import gmap strings list fin_maps.

Local Open Scope string_scope.
Local Open Scope list_scope.
Local Open Scope stdpp_scope.

#[local] Arguments String.append !_ _ : simpl nomatch.

(** ** Strings as Python [str] *)

Module PyStr.

Definition is_sep (c : ascii) : bool := bool_decide (c = "/"%char).
Definition is_nul (c : ascii) : bool := bool_decide (c = "000"%char).

Definition nonempty (s : string) : bool :=
  match s with EmptyString => false | String _ _ => true end.

(** [c in s] for a one-character needle, as a predicate on characters. *)
Fixpoint existsb (f : ascii -> bool) (s : string) : bool :=
  match s with
  | EmptyString => false
  | String c r => f c || existsb f r
  end.

Fixpoint forallb (f : ascii -> bool) (s : string) : bool :=
  match s with
  | EmptyString => true
  | String c r => f c && forallb f r
  end.

(** [s.startswith('/')] and [s.endswith('/')]. *)
Definition startswith_sep (s : string) : bool :=
  match s with String c _ => is_sep c | EmptyString => false end.

Fixpoint endswith_sep (s : string) : bool :=
  match s with
  | EmptyString => false
  | String c EmptyString => is_sep c
  | String _ r => endswith_sep r
  end.

(** [s.rstrip('/')]. *)
Fixpoint rstrip_sep (s : string) : string :=
  match s with
  | EmptyString => EmptyString
  | String c r =>
      match rstrip_sep r with
      | EmptyString => if is_sep c then EmptyString else String c EmptyString
      | r' => String c r'
      end
  end.

(** [(s[:i], s[i:])] for [i = s.rfind('/') + 1]. *)
Fixpoint rpartition_sep (s : string) : string * string :=
  match s with
  | EmptyString => (EmptyString, EmptyString)
  | String c r =>
      let (h, t) := rpartition_sep r in
      match h with
      | EmptyString =>
          if is_sep c then (String c EmptyString, t) else (EmptyString, String c t)
      | _ => (String c h, t)
      end
  end.

(** [(s[:i], s[i:])] for [i = s.find('/')], and [i = len(s)] when there is
    no separator. *)
Fixpoint partition_sep (s : string) : string * string :=
  match s with
  | EmptyString => (EmptyString, EmptyString)
  | String c r =>
      if is_sep c then (EmptyString, s)
      else let (h, t) := partition_sep r in (String c h, t)
  end.

(** [s.split('/')]: never empty, one more field than there are separators. *)
Fixpoint split_sep (s : string) : list string :=
  match s with
  | EmptyString => [EmptyString]
  | String c r =>
      if is_sep c then EmptyString :: split_sep r
      else match split_sep r with
           | [] => [String c EmptyString]
           | x :: xs => String c x :: xs
           end
  end.

Definition is_newline (c : ascii) : bool := bool_decide (c = "010"%char).

(** [s.count(c)] for the characters [f] holds of. *)
Fixpoint count (f : ascii -> bool) (s : string) : nat :=
  match s with
  | EmptyString => 0
  | String c r => (if f c then 1 else 0) + count f r
  end.

(** ['/' * k]. *)
Fixpoint seps (k : nat) : string :=
  match k with
  | O => EmptyString
  | S k' => String "/"%char (seps k')
  end.

End PyStr.

(** ** Exceptions and the process state *)

(** The exceptions the modelled runtime can raise.  The first four are
    subclasses of [OSError]; [ValueError] is what the [os] functions raise on
    a path with an embedded NUL.  [RecursionError] is what [makedirs_rec]
    raises at depth 0; [makedirs] never gets there
    (lemma [makedirs_rec_no_recursion_error]). *)
Inductive exn : Type :=
  | FileExistsError
  | FileNotFoundError
  | NotADirectoryError
  | IsADirectoryError
  | ValueError
  | RecursionError.

#[global] Instance exn_eq_dec : EqDecision exn.
Proof. solve_decision. Defined.

Definition is_OSError (e : exn) : bool :=
  match e with
  | FileExistsError | FileNotFoundError | NotADirectoryError | IsADirectoryError => true
  | ValueError | RecursionError => false
  end.

Inductive result (A : Type) : Type :=
  | Ok (a : A)
  | Raise (e : exn).
Arguments Ok {A} a.
Arguments Raise {A} e.

Inductive node : Type :=
  | Dir
  | File (contents : string).

#[global] Instance node_eq_dec : EqDecision node.
Proof. solve_decision. Defined.

(** One line of the password database, as [pwd.struct_passwd] has it. *)
Record passwd_entry : Type := mkPasswd {
  pw_name : string;
  pw_uid : N;
  pw_dir : string
}.

Record state : Type := mkState {
  environ : gmap string string;       (* os.environ *)
  passwd : list passwd_entry;         (* the password database *)
  uid : N;                            (* os.getuid() *)
  cwd : list string;                  (* the working directory, normalised *)
  fs : gmap (list string) node;       (* the file system *)
  stdout : string                     (* what was written to sys.stdout *)
}.

Definition set_fs (s : state) (m : gmap (list string) node) : state :=
  mkState (environ s) (passwd s) (uid s) (cwd s) m (stdout s).

Definition set_stdout (s : state) (out : string) : state :=
  mkState (environ s) (passwd s) (uid s) (cwd s) (fs s) out.

(** A computation of the program: it reads and changes the state and either
    returns a value or raises.  The state at a raise is the state reached so
    far: nothing is rolled back. *)
Definition M (A : Type) : Type := state -> result A * state.

Definition ret {A} (a : A) : M A := fun s => (Ok a, s).
Definition raise {A} (e : exn) : M A := fun s => (Raise e, s).

Definition bind {A B} (m : M A) (k : A -> M B) : M B :=
  fun s =>
    match m s with
    | (Ok a, s') => k a s'
    | (Raise e, s') => (Raise e, s')
    end.

(** [try: m except <handles>: h] *)
Definition try_except {A} (m : M A) (handles : exn -> bool) (h : exn -> M A) : M A :=
  fun s =>
    match m s with
    | (Ok a, s') => (Ok a, s')
    | (Raise e, s') => if handles e then h e s' else (Raise e, s')
    end.

Notation "'do' x <- m ; k" := (bind m (fun x => k))
  (at level 10, x name, m at level 100, k at level 200).
Notation "'run' m ; k" := (bind m (fun _ => k))
  (at level 10, m at level 100, k at level 200).

(** ** The file system *)

(** The root directory always exists. *)
Definition node_at (m : gmap (list string) node) (p : list string) : option node :=
  match p with
  | [] => Some Dir
  | _ => m !! p
  end.

(** One step of path resolution from directory [cur]. *)
Definition step (cur : list string) (c : string) : list string :=
  if bool_decide (c = "") || bool_decide (c = ".") then cur
  else if bool_decide (c = "..") then removelast cur
  else cur ++ [c].

(** Walk the components [cs] from [cur].  Every component is looked up in a
    directory, so the place the walk stands on must be one; the place the
    last component names is not looked at. *)
Fixpoint walk (m : gmap (list string) node) (cur : list string) (cs : list string)
  : result (list string) :=
  match cs with
  | [] => Ok cur
  | c :: cs' =>
      match node_at m cur with
      | None => Raise FileNotFoundError
      | Some (File _) => Raise NotADirectoryError
      | Some Dir => walk m (step cur c) cs'
      end
  end.

Definition start_dir (s : state) (p : string) : list string :=
  if PyStr.startswith_sep p then [] else cwd s.

(** The normalised path a path string names in state [s]. *)
Definition resolve (s : state) (p : string) : result (list string) :=
  if PyStr.existsb PyStr.is_nul p then Raise ValueError
  else if negb (PyStr.nonempty p) then Raise FileNotFoundError
  else walk (fs s) (start_dir s p) (PyStr.split_sep p).

(** [os.stat(p)], as far as the node kind and contents. *)
Definition os_stat (s : state) (p : string) : result node :=
  match resolve s p with
  | Ok q =>
      match node_at (fs s) q with
      | Some n => Ok n
      | None => Raise FileNotFoundError
      end
  | Raise e => Raise e
  end.

(** [os.path.exists(p)]: [os.stat] raising [OSError] or [ValueError] is [False]. *)
Definition path_exists (p : string) : M bool :=
  fun s => (Ok (match os_stat s p with Ok _ => true | Raise _ => false end), s).

(** [os.path.isdir(p)]. *)
Definition path_isdir (p : string) : M bool :=
  fun s => (Ok (match os_stat s p with Ok Dir => true | _ => false end), s).

(** [os.mkdir(p)].  Trailing separators of the name are ignored. *)
Definition mkdir_name (p : string) : string :=
  match PyStr.rstrip_sep p with
  | EmptyString => p
  | p' => p'
  end.

Definition os_mkdir (p : string) : M unit :=
  fun s =>
    match resolve s (mkdir_name p) with
    | Raise e => (Raise e, s)
    | Ok q =>
        match node_at (fs s) q with
        | Some _ => (Raise FileExistsError, s)
        | None => (Ok tt, set_fs s (<[q := Dir]> (fs s)))
        end
    end.

(** [open(p, "w")]: create the file or truncate it.  The file object is
    represented by the node it is open on.  (A name with a trailing separator
    is never passed by this program; the model does not treat it apart.) *)
Definition py_open_w (p : string) : M (list string) :=
  fun s =>
    match resolve s p with
    | Raise e => (Raise e, s)
    | Ok q =>
        match node_at (fs s) q with
        | Some Dir => (Raise IsADirectoryError, s)
        | _ => (Ok q, set_fs s (<[q := File ""]> (fs s)))
        end
    end.

(** [f.write(data)] on a file opened for writing: the data goes to the end
    of what the file holds.  Buffering is not modelled: the file is closed,
    and so flushed, when the [with] block is left. *)
Definition file_write (f : list string) (data : string) : M nat :=
  fun s =>
    match fs s !! f with
    | Some (File c) => (Ok (String.length data), set_fs s (<[f := File (c +:+ data)]> (fs s)))
    | _ => (Ok (String.length data), s)
    end.

Definition file_close (f : list string) : M unit := ret tt.

(** [with open(p, "w") as f: body]: the file is closed on every way out of
    the body. *)
Definition with_open_w {A} (p : string) (body : list string -> M A) : M A :=
  fun s =>
    match py_open_w p s with
    | (Raise e, s1) => (Raise e, s1)
    | (Ok f, s1) =>
        let (r, s2) := body f s1 in
        let (_, s3) := file_close f s2 in
        (r, s3)
    end.

(** [print(x)]: the text and a newline. *)
Definition newline : string := String "010"%char "".

Definition print (x : string) : M unit :=
  fun s => (Ok tt, set_stdout s (stdout s +:+ x +:+ newline)).

(** ** [posixpath] and [os.makedirs] *)

(** [posixpath.split]. *)
Definition path_split (p : string) : string * string :=
  let (head, tail) := PyStr.rpartition_sep p in
  (if PyStr.nonempty head && negb (PyStr.forallb PyStr.is_sep head)
   then PyStr.rstrip_sep head else head,
   tail).

(** [posixpath.join(a, b)]. *)
Definition path_join (a b : string) : string :=
  if PyStr.startswith_sep b then b
  else if negb (PyStr.nonempty a) || PyStr.endswith_sep a then a +:+ b
  else a +:+ "/" +:+ b.

(** [pwd.getpwuid] and [pwd.getpwnam]; [None] stands for [KeyError]. *)
Definition getpwuid (s : state) (u : N) : option passwd_entry :=
  List.find (fun e => bool_decide (pw_uid e = u)) (passwd s).

Definition getpwnam (s : state) (name : string) : option passwd_entry :=
  List.find (fun e => bool_decide (pw_name e = name)) (passwd s).

(** The home directory [posixpath.expanduser] substitutes for [~name];
    [None] when the path is to be returned unchanged. *)
Definition userhome (s : state) (name : string) : option string :=
  match name with
  | EmptyString =>
      match environ s !! "HOME" with
      | Some h => Some h
      | None => pw_dir <$> getpwuid s (uid s)
      end
  | _ => pw_dir <$> getpwnam s name
  end.

(** [posixpath.expanduser]. *)
Definition expanduser (path : string) : M string :=
  fun s =>
    match path with
    | String "~"%char rest =>
        let (name, tl) := PyStr.partition_sep rest in
        match userhome s name with
        | None => (Ok path, s)
        | Some home =>
            let r := PyStr.rstrip_sep home +:+ tl in
            (Ok (if PyStr.nonempty r then r else "/"), s)
        end
    | _ => (Ok path, s)
    end.

(** The head and tail [os.makedirs] works with: [path.split(name)], and
    once more on the head when the tail is empty. *)
Definition makedirs_head_tail (name : string) : string * string :=
  let (head, tail) := path_split name in
  if PyStr.nonempty tail then (head, tail) else path_split head.

(** The last step of [os.makedirs]: [mkdir(name)], where an [OSError] is
    passed over when [exist_ok] holds and the name is a directory. *)
Definition mkdir_exist_ok (name : string) (exist_ok : bool) : M unit :=
  try_except (os_mkdir name) is_OSError (fun e =>
    do isd <- path_isdir name;
    if negb exist_ok || negb isd then raise e else ret tt).

(** [os.makedirs(name, exist_ok=exist_ok)].  The recursion is on the head of
    the name, which is shorter than the name; [makedirs] below starts it
    with enough depth for any name. *)
Fixpoint makedirs_rec (depth : nat) (name : string) (exist_ok : bool) : M unit :=
  match depth with
  | O => raise RecursionError
  | S depth' =>
      let (head, tail) := makedirs_head_tail name in
      if PyStr.nonempty head && PyStr.nonempty tail then
        do ex <- path_exists head;
        if negb ex then
          run try_except (makedirs_rec depth' head exist_ok)
                         (fun e => bool_decide (e = FileExistsError)) (fun _ => ret tt);
          if bool_decide (tail = ".") then ret tt
          else mkdir_exist_ok name exist_ok
        else mkdir_exist_ok name exist_ok
      else mkdir_exist_ok name exist_ok
  end.

Definition makedirs (name : string) (exist_ok : bool) : M unit :=
  makedirs_rec (S (String.length name)) name exist_ok.

(** ** The program *)

Definition MNEMONIC : string :=
  "provide verb sheriff tragic arrow bless still empty gesture senior pause tobacco creek giggle pair crisp glow divide boost endless elite fiction cup arena".

Definition main : M unit :=
  run print "Importing wallet with provided mnemonic...";
  do wallet_dir <- expanduser "~/.dig/wallets/test-wallet";
  run makedirs wallet_dir true;
  run with_open_w (path_join wallet_dir "mnemonic.txt") (fun f =>
        file_write f MNEMONIC);
  run print ("Created wallet marker at: " +:+ wallet_dir);
  print "Mnemonic saved for testing purposes".

(** Running the script: [main()] under [if __name__ == "__main__"].  An
    exception that reaches the top level ends the process with status 1. *)
Definition script (s : state) : Z * state :=
  match main s with
  | (Ok _, s') => (0%Z, s')
  | (Raise _, s') => (1%Z, s')
  end.

(** ** Notions the statements use *)

(** Every directory of [m] is a directory of [m']. *)
Definition dirs_le (m m' : gmap (list string) node) : Prop :=
  forall p, node_at m p = Some Dir -> node_at m' p = Some Dir.

(** The parts of the state that no file system call changes. *)
Definition same_env (s s' : state) : Prop :=
  environ s' = environ s /\ passwd s' = passwd s /\ uid s' = uid s /\ cwd s' = cwd s.

(** From [s] to [s'] nothing happened but the creation of directories. *)
Definition only_new_dirs (s s' : state) : Prop :=
  same_env s s' /\ stdout s' = stdout s /\ fs s ⊆ fs s' /\
  forall q n, fs s' !! q = Some n -> fs s !! q = None -> n = Dir.

(** The name [main] passes to [os.makedirs]: what [expanduser] makes of
    ["~/.dig/wallets/test-wallet"] in state [s] (lemma [expanduser_wallet_dir]). *)
Definition wallet_dir (s : state) : string :=
  match userhome s "" with
  | Some home => PyStr.rstrip_sep home +:+ "/.dig/wallets/test-wallet"
  | None => "~/.dig/wallets/test-wallet"
  end.

(** The state after the first [print] of [main]. *)
Definition started (s : state) : state :=
  set_stdout s (stdout s +:+ "Importing wallet with provided mnemonic..." +:+ newline).

(** What [main] does once [os.makedirs] has returned. *)
Definition write_and_report (wallet_dir : string) : M unit :=
  run with_open_w (path_join wallet_dir "mnemonic.txt") (fun f =>
        file_write f MNEMONIC);
  run print ("Created wallet marker at: " +:+ wallet_dir);
  print "Mnemonic saved for testing purposes".

(** The two [print]s that end a successful run. *)
Definition reported (wd : string) (s : state) : state :=
  set_stdout s ((stdout s +:+ ("Created wallet marker at: " +:+ wd) +:+ newline)
                +:+ "Mnemonic saved for testing purposes" +:+ newline).

(** A name of one entry: not empty, no separator, no NUL, and neither
    ["."] nor [".."]. *)
Definition plain_name (t : string) : bool :=
  PyStr.nonempty t && negb (PyStr.existsb PyStr.is_sep t)
  && negb (PyStr.existsb PyStr.is_nul t)
  && negb (bool_decide (t = ".")) && negb (bool_decide (t = "..")).

(** Nothing is at [p], or a directory. *)
Definition free_or_dir (m : gmap (list string) node) (p : list string) : Prop :=
  m !! p = None \/ m !! p = Some Dir.

(** [os.makedirs(name, exist_ok=True)] run to depth [d] from [s] returns in
    [s'], where [name] is the directory [q]; nothing below the depth of [q]
    has changed. *)
Definition ensured (d : nat) (name : string) (s s' : state) (q : list string) : Prop :=
  makedirs_rec d name true s = (Ok tt, s') /\
  resolve s' name = Ok q /\ node_at (fs s') q = Some Dir /\
  forall k, length q < length k -> fs s' !! k = fs s !! k.

(** The state [s] seen from another working directory. *)
Definition set_cwd (s : state) (c : list string) : state :=
  mkState (environ s) (passwd s) (uid s) c (fs s) (stdout s).

(** A computation that does the same from every working directory. *)
Definition cwd_free {A} (m : M A) : Prop :=
  forall s c, m (set_cwd s c) = (let (r, s') := m s in (r, set_cwd s' c)).

(** The number of lines in a piece of output. *)
Definition count_lines (out : string) : nat := PyStr.count PyStr.is_newline out.

(** ** States to run the program on *)

(** A clean home directory [/tmp/fakehome] that does not exist yet. *)
Definition st_clean : state :=
  mkState {[ "HOME" := "/tmp/fakehome" ]} [] 1000%N ["work"]
          {[ ["tmp"] := Dir; ["tmp"; "note"] := File "x" ]} "".


(** The home directory has a regular file where [.dig] should be. *)
Definition st_blocked : state :=
  mkState {[ "HOME" := "/tmp/fakehome" ]} [] 1000%N ["work"]
          {[ ["tmp"] := Dir; ["tmp"; "fakehome"] := Dir;
             ["tmp"; "fakehome"; ".dig"] := File "x" ]} "".

(** The marker file is there already, with other contents; [HOME] has a
    trailing separator. *)
Definition st_old : state :=
  mkState {[ "HOME" := "/tmp/fakehome/" ]} [] 1000%N ["work"]
          {[ ["tmp"] := Dir; ["tmp"; "fakehome"] := Dir;
             ["tmp"; "fakehome"; ".dig"] := Dir;
             ["tmp"; "fakehome"; ".dig"; "wallets"] := Dir;
             ["tmp"; "fakehome"; ".dig"; "wallets"; "test-wallet"] := Dir;
             ["tmp"; "fakehome"; ".dig"; "wallets"; "test-wallet"; "mnemonic.txt"]
               := File "abandon abandon about and a much longer text than the secret phrase, to see that nothing of it is left behind once the file has been written again, whatever its length was before the run" ]}
          "".

(** A regular file has the name of the wallet directory. *)
Definition st_wallet_is_file : state :=
  mkState {[ "HOME" := "/tmp/fakehome" ]} [] 1000%N ["work"]
          {[ ["tmp"] := Dir; ["tmp"; "fakehome"] := Dir;
             ["tmp"; "fakehome"; ".dig"] := Dir;
             ["tmp"; "fakehome"; ".dig"; "wallets"] := Dir;
             ["tmp"; "fakehome"; ".dig"; "wallets"; "test-wallet"] := File "" ]} "".

(** A directory has the name of the marker file. *)
Definition st_marker_is_dir : state :=
  mkState {[ "HOME" := "/tmp/fakehome" ]} [] 1000%N ["work"]
          {[ ["tmp"] := Dir; ["tmp"; "fakehome"] := Dir;
             ["tmp"; "fakehome"; ".dig"] := Dir;
             ["tmp"; "fakehome"; ".dig"; "wallets"] := Dir;
             ["tmp"; "fakehome"; ".dig"; "wallets"; "test-wallet"] := Dir;
             ["tmp"; "fakehome"; ".dig"; "wallets"; "test-wallet"; "mnemonic.txt"] := Dir ]}
          "".

(** [HOME] is not set; the home directory comes from the password database. *)
Definition st_passwd : state :=
  mkState ∅ [mkPasswd "root" 0%N "/root"; mkPasswd "dig" 1000%N "/home/dig"] 1000%N
          ["work"] {[ ["home"] := Dir; ["home"; "dig"] := Dir ]} "".

(** No [HOME] and no entry for the user in the password database. *)
Definition st_nohome : state :=
  mkState ∅ [mkPasswd "root" 0%N "/root"] 1000%N ["work"]
          {[ ["work"] := Dir ]} "".


(** ** Examples *)

Example rstrip_sep_ex : PyStr.rstrip_sep "/tmp/fakehome//" = "/tmp/fakehome".
Proof. reflexivity. Qed.

Example rpartition_sep_ex : PyStr.rpartition_sep "/a//b" = ("/a//", "b").
Proof. reflexivity. Qed.

Example split_sep_ex : PyStr.split_sep "/a//b/" = [""; "a"; ""; "b"; ""].
Proof. reflexivity. Qed.

Example path_split_ex1 : path_split "/tmp/fakehome" = ("/tmp", "fakehome").
Proof. reflexivity. Qed.

Example path_split_ex2 : path_split "/tmp" = ("/", "tmp").
Proof. reflexivity. Qed.

Example path_split_ex3 : path_split "a//b/" = ("a//b", "").
Proof. reflexivity. Qed.

Example path_split_ex4 : path_split "//a" = ("//", "a").
Proof. reflexivity. Qed.

Example expanduser_home_ex :
  expanduser "~/.dig/wallets/test-wallet" st_old
  = (Ok "/tmp/fakehome/.dig/wallets/test-wallet", st_old).
Proof. reflexivity. Qed.

Example expanduser_passwd_ex :
  expanduser "~/.dig/wallets/test-wallet" st_passwd
  = (Ok "/home/dig/.dig/wallets/test-wallet", st_passwd).
Proof. reflexivity. Qed.

Example expanduser_user_ex : expanduser "~root/x" st_passwd = (Ok "/root/x", st_passwd).
Proof. reflexivity. Qed.

Example expanduser_unknown_user_ex :
  expanduser "~nobody/x" st_passwd = (Ok "~nobody/x", st_passwd).
Proof. reflexivity. Qed.

Example path_join_ex :
  path_join "/tmp/fakehome/.dig/wallets/test-wallet" "mnemonic.txt"
  = "/tmp/fakehome/.dig/wallets/test-wallet/mnemonic.txt".
Proof. reflexivity. Qed.

Example main_clean_ex :
  fst (main st_clean) = Ok tt /\
  fs (snd (main st_clean))
  = {[ ["tmp"] := Dir; ["tmp"; "note"] := File "x";
       ["tmp"; "fakehome"] := Dir;
       ["tmp"; "fakehome"; ".dig"] := Dir;
       ["tmp"; "fakehome"; ".dig"; "wallets"] := Dir;
       ["tmp"; "fakehome"; ".dig"; "wallets"; "test-wallet"] := Dir;
       ["tmp"; "fakehome"; ".dig"; "wallets"; "test-wallet"; "mnemonic.txt"]
         := File MNEMONIC ]}.
Proof. split; vm_compute; reflexivity. Qed.

Example main_blocked_ex :
  main st_blocked = (Raise NotADirectoryError, started st_blocked).
Proof. vm_compute. reflexivity. Qed.

Example main_wallet_is_file_ex :
  main st_wallet_is_file = (Raise FileExistsError, started st_wallet_is_file).
Proof. vm_compute. reflexivity. Qed.

Example main_marker_is_dir_ex :
  main st_marker_is_dir = (Raise IsADirectoryError, started st_marker_is_dir).
Proof. vm_compute. reflexivity. Qed.

Example main_passwd_ex :
  fst (main st_passwd) = Ok tt /\
  fs (snd (main st_passwd))
     !! ["home"; "dig"; ".dig"; "wallets"; "test-wallet"; "mnemonic.txt"]
  = Some (File MNEMONIC).
Proof. split; vm_compute; reflexivity. Qed.

(** ** Facts about the string functions *)

Section string_facts.
Import PyStr.

Lemma is_sep_true c : is_sep c = true -> c = "/"%char.
Proof. unfold is_sep. intros H. by apply bool_decide_eq_true in H. Qed.

Lemma app_empty_r (a : string) : a +:+ "" = a.
Proof. induction a as [|c a IH]; simpl; [done | by rewrite IH]. Qed.

Lemma app_assoc_str (a b c : string) : (a +:+ b) +:+ c = a +:+ (b +:+ c).
Proof. induction a as [|x a IH]; simpl; [done | by rewrite IH]. Qed.

Lemma nonempty_app_l a b : nonempty a = true -> nonempty (a +:+ b) = true.
Proof. by destruct a. Qed.

Lemma nonempty_app_r a b : nonempty b = true -> nonempty (a +:+ b) = true.
Proof. by destruct a. Qed.

Lemma nonempty_false a : nonempty a = false -> a = "".
Proof. by destruct a. Qed.

Lemma existsb_app f a b : existsb f (a +:+ b) = existsb f a || existsb f b.
Proof. induction a as [|c a IH]; simpl; [done | by rewrite IH, orb_assoc]. Qed.

Lemma existsb_seps f k : f "/"%char = false -> existsb f (seps k) = false.
Proof. intros Hf. induction k as [|k IH]; simpl; [done | by rewrite Hf, IH]. Qed.

Lemma forallb_seps k : forallb is_sep (seps k) = true.
Proof. induction k as [|k IH]; simpl; [done | by rewrite IH]. Qed.

Lemma seps_snoc k : seps k +:+ "/" = seps (S k).
Proof. induction k as [|k IH]; simpl; [done | by rewrite IH]. Qed.

Lemma seps_app_sep k x : seps k +:+ String "/" x = String "/" (seps k +:+ x).
Proof. induction k as [|k IH]; simpl; [done | by rewrite IH]. Qed.

Lemma startswith_sep_app a b :
  nonempty a = true -> startswith_sep (a +:+ b) = startswith_sep a.
Proof. by destruct a. Qed.

Lemma endswith_sep_app a b :
  nonempty b = true -> endswith_sep (a +:+ b) = endswith_sep b.
Proof.
  intros Hb. induction a as [|c a IH]; simpl; [done |].
  rewrite IH. destruct (a +:+ b) eqn:E; [|done].
  destruct a; simpl in E; [subst b; done | done].
Qed.

(** [rstrip] *)

Lemma rstrip_sep_empty_iff s : rstrip_sep s = "" <-> forallb is_sep s = true.
Proof.
  induction s as [|c s IH]; simpl; [done |].
  destruct (rstrip_sep s) eqn:E.
  - destruct (is_sep c); simpl; [tauto | split; done].
  - split; [done |]. intros H. apply andb_true_iff in H as [_ H].
    apply IH in H. done.
Qed.

Lemma rstrip_sep_decomp s : exists k, s = rstrip_sep s +:+ seps k.
Proof.
  induction s as [|c s [k IH]]; simpl.
  - by exists 0.
  - destruct (rstrip_sep s) eqn:E; simpl in IH.
    + destruct (is_sep c) eqn:Ec.
      * apply is_sep_true in Ec. subst c. exists (S k). simpl. congruence.
      * exists k. simpl. congruence.
    + exists k. simpl. congruence.
Qed.

Lemma rstrip_sep_app a b :
  nonempty (rstrip_sep b) = true -> rstrip_sep (a +:+ b) = a +:+ rstrip_sep b.
Proof.
  intros Hb. induction a as [|c a IH]; simpl; [done |].
  rewrite IH. destruct (a +:+ rstrip_sep b) eqn:E; [|done].
  destruct a; simpl in E; [by rewrite E in Hb | done].
Qed.

Lemma rstrip_sep_seps k : rstrip_sep (seps k) = "".
Proof. apply rstrip_sep_empty_iff, forallb_seps. Qed.

Lemma rstrip_sep_app_seps a k : rstrip_sep (a +:+ seps k) = rstrip_sep a.
Proof.
  induction a as [|c a IH]; simpl; [apply rstrip_sep_seps | by rewrite IH].
Qed.


Lemma existsb_rstrip_sep f s : existsb f (rstrip_sep s) = true -> existsb f s = true.
Proof.
  destruct (rstrip_sep_decomp s) as [k Hk]. intros H.
  rewrite Hk, existsb_app, H. done.
Qed.

Lemma startswith_sep_rstrip s :
  nonempty (rstrip_sep s) = true -> startswith_sep (rstrip_sep s) = startswith_sep s.
Proof.
  destruct (rstrip_sep_decomp s) as [k Hk]. intros H.
  rewrite Hk at 2. by rewrite startswith_sep_app.
Qed.

Lemma length_app_str a b : String.length (a +:+ b) = String.length a + String.length b.
Proof. induction a as [|c a IH]; simpl; [done | by rewrite IH]. Qed.

Lemma length_rstrip_sep s : String.length (rstrip_sep s) <= String.length s.
Proof.
  induction s as [|c s IH]; simpl; [done |].
  destruct (rstrip_sep s); [destruct (is_sep c) |]; simpl in *; lia.
Qed.

(** [split('/')] *)

Lemma split_sep_nonnil s : split_sep s <> [].
Proof.
  induction s as [|c s IH]; simpl; [done |].
  destruct (is_sep c); [done |]. by destruct (split_sep s).
Qed.

Lemma split_sep_app_sep a b :
  split_sep (a +:+ String "/" b) = split_sep a ++ split_sep b.
Proof.
  induction a as [|c a IH]; simpl; [done |].
  rewrite IH. destruct (is_sep c); [done |].
  pose proof (split_sep_nonnil a). by destruct (split_sep a).
Qed.

Lemma split_sep_nosep t : existsb is_sep t = false -> split_sep t = [t].
Proof.
  induction t as [|c t IH]; simpl; [done |].
  intros H. apply orb_false_iff in H as [Hc Ht]. rewrite Hc, IH; done.
Qed.

Lemma split_sep_seps_app k x : split_sep (seps k +:+ x) = repeat "" k ++ split_sep x.
Proof. induction k as [|k IH]; simpl; [done | by rewrite IH]. Qed.

Lemma repeat_app_cons {A} (x : A) k l : repeat x k ++ x :: l = x :: repeat x k ++ l.
Proof. induction k as [|k IH]; simpl; [done | by rewrite IH]. Qed.

Lemma split_sep_app_seps_sep a k b :
  split_sep (a +:+ seps k +:+ String "/" b) = split_sep a ++ repeat "" k ++ split_sep b.
Proof.
  destruct k as [|k]; simpl.
  - apply split_sep_app_sep.
  - rewrite split_sep_app_sep, split_sep_seps_app. simpl.
    by rewrite repeat_app_cons.
Qed.

(** [rpartition] *)

Lemma rpartition_sep_nosep t :
  existsb is_sep t = false -> rpartition_sep t = ("", t).
Proof.
  induction t as [|c t IH]; simpl; [done |].
  intros H. apply orb_false_iff in H as [Hc Ht]. by rewrite IH, Hc.
Qed.

Lemma rpartition_sep_app_sep u t :
  existsb is_sep t = false ->
  rpartition_sep (u +:+ String "/" t) = (u +:+ "/", t).
Proof.
  intros Ht. induction u as [|c u IH]; simpl.
  - by rewrite rpartition_sep_nosep.
  - rewrite IH. by destruct u.
Qed.

Lemma rpartition_sep_spec p h t :
  rpartition_sep p = (h, t) ->
  p = h +:+ t /\ existsb is_sep t = false /\ (h = "" \/ exists u, h = u +:+ "/").
Proof.
  revert h t. induction p as [|c p IH]; simpl; intros h t H.
  - by inversion H; subst; auto.
  - destruct (rpartition_sep p) as [h' t'] eqn:E.
    destruct (IH _ _ eq_refl) as (Hp & Ht & Hh).
    destruct h' as [|c' h'].
    + destruct (is_sep c) eqn:Ec; inversion H; subst; simpl in *.
      * apply is_sep_true in Ec. subst c. repeat split; [done |].
        right. by exists "".
      * rewrite Ec. auto.
    + inversion H; subst. simpl. repeat split; [done |].
      right. destruct Hh as [Hh | [u Hu]]; [done |].
      exists (String c u). simpl. by rewrite Hu.
Qed.

End string_facts.

(** ** Facts about [posixpath.split] *)

Section split_facts.
Import PyStr.

Lemma forallb_is_sep_seps h : forallb is_sep h = true -> h = seps (String.length h).
Proof.
  induction h as [|c h IH]; simpl; [done |].
  intros H. apply andb_true_iff in H as [Hc Hh].
  apply is_sep_true in Hc. subst c. by rewrite <- IH.
Qed.

Lemma path_split_app p h t : path_split p = (h, t) ->
  String.length h + String.length t <= String.length p.
Proof.
  unfold path_split. destruct (rpartition_sep p) as [pre t'] eqn:E.
  destruct (rpartition_sep_spec _ _ _ E) as (Hp & _ & _).
  intros H. inversion H; subst; clear H.
  rewrite length_app_str.
  destruct (_ && _); [pose proof (length_rstrip_sep pre) |]; lia.
Qed.

Lemma path_split_head_cases name head tail :
  path_split name = (head, tail) -> nonempty head = true ->
  forallb is_sep head = true \/ exists x, name = head +:+ String "/" x.
Proof.
  unfold path_split. destruct (rpartition_sep name) as [pre t'] eqn:E.
  destruct (rpartition_sep_spec _ _ _ E) as (Hp & _ & Hpre).
  intros H Hne. inversion H; subst head t'; clear H.
  destruct (nonempty pre && negb (forallb is_sep pre)) eqn:C.
  - right. destruct Hpre as [-> | [u ->]]; [done |].
    destruct (rstrip_sep_decomp u) as [k Hk].
    change (u +:+ "/") with (u +:+ seps 1). rewrite rstrip_sep_app_seps.
    exists (seps k +:+ tail). rewrite Hp. rewrite Hk at 1.
    rewrite !app_assoc_str. f_equal. simpl. apply seps_app_sep.
  - left. rewrite Hne in C. simpl in C. by apply negb_false_iff in C.
Qed.

Lemma makedirs_head_tail_cases name head tail :
  makedirs_head_tail name = (head, tail) ->
  nonempty head = true -> nonempty tail = true ->
  forallb is_sep head = true \/ exists x, name = head +:+ String "/" x.
Proof.
  unfold makedirs_head_tail. destruct (path_split name) as [h0 t0] eqn:E0.
  destruct (nonempty t0) eqn:Et0.
  - intros H Hh _. inversion H; subst. eapply path_split_head_cases; eauto.
  - intros E1 Hh Ht. apply nonempty_false in Et0. subst t0.
    unfold path_split in E0. destruct (rpartition_sep name) as [pre t'] eqn:E.
    destruct (rpartition_sep_spec _ _ _ E) as (Hp & _ & _).
    inversion E0; subst t'; clear E0. rewrite app_empty_r in Hp. subst pre.
    destruct (nonempty name && negb (forallb is_sep name)) eqn:C.
    + subst h0. destruct (path_split_head_cases _ _ _ E1 Hh) as [? | [x Hx]]; [by left |].
      right. destruct (rstrip_sep_decomp name) as [k Hk].
      exists (x +:+ seps k). rewrite Hk at 1. rewrite Hx.
      by rewrite app_assoc_str.
    + subst h0. unfold path_split in E1. rewrite E in E1.
      inversion E1; subst. done.
Qed.

Lemma makedirs_head_shorter name head tail :
  makedirs_head_tail name = (head, tail) -> nonempty tail = true ->
  String.length head < String.length name.
Proof.
  unfold makedirs_head_tail. destruct (path_split name) as [h0 t0] eqn:E0.
  pose proof (path_split_app _ _ _ E0) as L0.
  destruct (nonempty t0) eqn:Et0.
  - intros H Ht. inversion H; subst. destruct tail; [done |]. simpl in L0. lia.
  - intros E1 Ht. pose proof (path_split_app _ _ _ E1) as L1.
    destruct tail; [done |]. simpl in L1. lia.
Qed.

Lemma makedirs_head_tail_app_sep u t :
  nonempty t = true -> existsb is_sep t = false ->
  snd (makedirs_head_tail (u +:+ String "/" t)) = t.
Proof.
  intros Hne Ht. unfold makedirs_head_tail, path_split.
  rewrite rpartition_sep_app_sep by done. by rewrite Hne.
Qed.

End split_facts.

(** ** Facts about path resolution *)

Section walk_facts.
Import PyStr.

Lemma step_empty cur : step cur "" = cur.
Proof. reflexivity. Qed.

Lemma walk_app m cur A B :
  walk m cur (A ++ B) =
  match walk m cur A with Ok q => walk m q B | Raise e => Raise e end.
Proof.
  revert cur. induction A as [|a A IH]; intros cur; simpl; [done |].
  destruct (node_at m cur) as [[|c]|]; auto.
Qed.

Lemma walk_empties m cur k B :
  B <> [] -> walk m cur (repeat "" k ++ B) = walk m cur B.
Proof.
  intros HB. induction k as [|k IH]; simpl; [done |].
  rewrite step_empty, IH. destruct B as [|b B]; [done |]. simpl.
  by destruct (node_at m cur) as [[|c]|].
Qed.

Lemma walk_repeat_empty m cur k :
  node_at m cur = Some Dir -> walk m cur (repeat "" k) = Ok cur.
Proof.
  intros H. induction k as [|k IH]; simpl; [done |].
  by rewrite H, step_empty.
Qed.

Lemma walk_app_inv m cur A B q :
  walk m cur (A ++ B) = Ok q -> B <> [] ->
  exists qa, walk m cur A = Ok qa /\ node_at m qa = Some Dir /\ walk m qa B = Ok q.
Proof.
  rewrite walk_app. destruct (walk m cur A) as [qa|e]; [|done].
  intros H HB. exists qa. repeat split; [|done].
  destruct B as [|b B]; [done |]. simpl in H.
  by destruct (node_at m qa) as [[|c]|].
Qed.

Lemma walk_dirs_le m m' cur cs q :
  dirs_le m m' -> walk m cur cs = Ok q -> walk m' cur cs = Ok q.
Proof.
  intros Hle. revert cur. induction cs as [|c cs IH]; intros cur; simpl; [done |].
  destruct (node_at m cur) as [[|x]|] eqn:E; try done.
  rewrite (Hle _ E). apply IH.
Qed.

Lemma dirs_le_subseteq (m m' : gmap (list string) node) : m ⊆ m' -> dirs_le m m'.
Proof.
  intros Hsub p. destruct p as [|a p]; simpl; [done |].
  intros H. eapply lookup_weaken; eauto.
Qed.

Lemma node_at_snoc (m : gmap (list string) node) p c : node_at m (p ++ [c]) = m !! (p ++ [c]).
Proof. by destruct p. Qed.

End walk_facts.

Section resolve_facts.
Import PyStr.

Lemma walk_error m cur cs e :
  walk m cur cs = Raise e -> e = FileNotFoundError \/ e = NotADirectoryError.
Proof.
  revert cur. induction cs as [|c cs IH]; intros cur; simpl; [done |].
  destruct (node_at m cur) as [[|x]|]; [apply IH | |]; intros H; inversion H; auto.
Qed.

Lemma resolve_error s p e :
  resolve s p = Raise e ->
  e = FileNotFoundError \/ e = NotADirectoryError \/
  (e = ValueError /\ existsb is_nul p = true).
Proof.
  unfold resolve. destruct (existsb is_nul p).
  - intros H. inversion H. by right; right.
  - destruct (negb (nonempty p)).
    + intros H. inversion H. by left.
    + intros H. apply walk_error in H as [-> | ->]; auto.
Qed.

Lemma resolve_nul s p : existsb is_nul p = true -> resolve s p = Raise ValueError.
Proof. unfold resolve. by intros ->. Qed.

Lemma resolve_nul_free s p q : resolve s p = Ok q -> existsb is_nul p = false.
Proof. unfold resolve. by destruct (existsb is_nul p). Qed.

Lemma resolve_nonempty s p q : resolve s p = Ok q -> nonempty p = true.
Proof.
  unfold resolve. destruct (existsb is_nul p); [done |]. by destruct (nonempty p).
Qed.

Lemma resolve_mono s s' p q :
  cwd s' = cwd s -> dirs_le (fs s) (fs s') ->
  resolve s p = Ok q -> resolve s' p = Ok q.
Proof.
  unfold resolve, start_dir. intros Hc Hle.
  destruct (existsb is_nul p); [done |]. destruct (negb (nonempty p)); [done |].
  rewrite Hc. by apply walk_dirs_le.
Qed.

Lemma os_stat_inv s p n :
  os_stat s p = Ok n -> exists q, resolve s p = Ok q /\ node_at (fs s) q = Some n.
Proof.
  unfold os_stat. destruct (resolve s p) as [q|e]; [|done].
  destruct (node_at (fs s) q) as [n'|] eqn:E; [|done].
  intros H. inversion H; subst. by exists q.
Qed.

Lemma os_stat_intro s p q n :
  resolve s p = Ok q -> node_at (fs s) q = Some n -> os_stat s p = Ok n.
Proof. unfold os_stat. by intros -> ->. Qed.

Lemma os_stat_dir_mono s s' p :
  cwd s' = cwd s -> dirs_le (fs s) (fs s') ->
  os_stat s p = Ok Dir -> os_stat s' p = Ok Dir.
Proof.
  intros Hc Hle H. apply os_stat_inv in H as (q & Hq & Hn).
  eapply os_stat_intro; [by eapply resolve_mono | by apply Hle].
Qed.

Lemma resolve_parent s u x q :
  nonempty u = true -> resolve s (u +:+ String "/" x) = Ok q -> os_stat s u = Ok Dir.
Proof.
  intros Hu. unfold os_stat, resolve, start_dir.
  rewrite existsb_app, (startswith_sep_app _ _ Hu), (nonempty_app_l _ _ Hu), Hu.
  destruct (existsb is_nul u); [done |]. simpl.
  destruct (existsb is_nul x); [done |].
  rewrite split_sep_app_sep. intros H.
  apply walk_app_inv in H as (qa & Ha & Hd & _); [| apply split_sep_nonnil].
  by rewrite Ha, Hd.
Qed.

Lemma os_stat_seps s h :
  nonempty h = true -> forallb is_sep h = true -> os_stat s h = Ok Dir.
Proof.
  intros Hne Hall. rewrite (forallb_is_sep_seps _ Hall).
  destruct (String.length h) as [|k] eqn:El; [by destruct h |].
  unfold os_stat, resolve, start_dir.
  rewrite existsb_seps by done. simpl.
  rewrite <- (app_empty_r (seps k)), split_sep_seps_app. simpl.
  change ("" :: repeat "" k ++ [""]) with (repeat "" (S k) ++ [""]).
  rewrite walk_app, walk_repeat_empty by done. done.
Qed.

Lemma stat_head s name head tail q :
  makedirs_head_tail name = (head, tail) ->
  nonempty head = true -> nonempty tail = true ->
  resolve s name = Ok q -> os_stat s head = Ok Dir.
Proof.
  intros E Hh Ht Hr.
  destruct (makedirs_head_tail_cases _ _ _ E Hh Ht) as [Hall | [x ->]].
  - by apply os_stat_seps.
  - by eapply resolve_parent.
Qed.

Lemma resolve_rstrip s h x :
  resolve s (h +:+ String "/" x) = resolve s (rstrip_sep h +:+ String "/" x).
Proof.
  destruct (rstrip_sep_decomp h) as [k Hk].
  rewrite Hk at 1. rewrite app_assoc_str.
  unfold resolve, start_dir.
  rewrite !existsb_app, (existsb_seps is_nul k) by done. simpl.
  rewrite (nonempty_app_r (rstrip_sep h) (seps k +:+ String "/" x))
    by (by apply nonempty_app_r).
  rewrite (nonempty_app_r (rstrip_sep h) (String "/" x)) by done. simpl.
  rewrite split_sep_app_seps_sep, split_sep_app_sep, !walk_app.
  replace (startswith_sep (rstrip_sep h +:+ seps k +:+ String "/" x))
    with (startswith_sep (rstrip_sep h +:+ String "/" x))
    by (destruct (rstrip_sep h); [by destruct k | done]).
  destruct (walk _ _ (split_sep (rstrip_sep h))); [| done].
  by rewrite walk_empties by apply split_sep_nonnil.
Qed.

Lemma resolve_mkdir_name s name :
  os_stat s name = Ok Dir ->
  exists q, resolve s (mkdir_name name) = Ok q /\ node_at (fs s) q = Some Dir.
Proof.
  intros H. unfold mkdir_name.
  destruct (rstrip_sep name) as [|c r] eqn:E; [by apply os_stat_inv |].
  destruct (rstrip_sep_decomp name) as [k Hk]. rewrite E in Hk.
  destruct k as [|k].
  - rewrite app_empty_r in Hk. rewrite <- Hk. by apply os_stat_inv.
  - apply os_stat_inv in H as (q & Hq & _). rewrite Hk in Hq.
    change (seps (S k)) with (String "/" (seps k)) in Hq.
    apply resolve_parent in Hq; [| done]. by apply os_stat_inv.
Qed.

Lemma mkdir_name_nul name :
  existsb is_nul (mkdir_name name) = true -> existsb is_nul name = true.
Proof.
  unfold mkdir_name. destruct (rstrip_sep name) eqn:E; [done |].
  rewrite <- E. apply existsb_rstrip_sep.
Qed.

End resolve_facts.

(** ** Facts about the file system calls *)

Section fs_calls.
Import PyStr.

Lemma node_at_None (m : gmap (list string) node) q :
  node_at m q = None -> q <> [] /\ m !! q = None.
Proof. destruct q; simpl; [done | by split]. Qed.

Lemma node_at_nonroot (m : gmap (list string) node) q :
  q <> [] -> node_at m q = m !! q.
Proof. by destruct q. Qed.

Lemma same_env_refl s : same_env s s.
Proof. by repeat split. Qed.

Lemma same_env_trans s1 s2 s3 : same_env s1 s2 -> same_env s2 s3 -> same_env s1 s3.
Proof.
  intros (A1 & A2 & A3 & A4) (B1 & B2 & B3 & B4).
  repeat split; congruence.
Qed.

Lemma only_new_dirs_refl s : only_new_dirs s s.
Proof.
  split; [apply same_env_refl |]. do 2 (split; [done |]).
  intros q n H1 H2. congruence.
Qed.

Lemma only_new_dirs_trans s1 s2 s3 :
  only_new_dirs s1 s2 -> only_new_dirs s2 s3 -> only_new_dirs s1 s3.
Proof.
  intros (E1 & O1 & S1 & N1) (E2 & O2 & S2 & N2).
  split; [by eapply same_env_trans |]. split; [congruence |].
  split; [by etrans |].
  intros q n H3 H1. destruct (fs s2 !! q) as [n'|] eqn:E.
  - pose proof (lookup_weaken _ _ _ _ E S2) as H3'.
    rewrite H3 in H3'. inversion H3'; subst. by eapply N1.
  - by eapply N2.
Qed.

Lemma only_new_dirs_mkdir s q :
  node_at (fs s) q = None -> only_new_dirs s (set_fs s (<[q := Dir]> (fs s))).
Proof.
  intros H. apply node_at_None in H as [Hq Hn].
  split; [by repeat split |]. split; [done |]. simpl.
  split; [by apply insert_subseteq |].
  intros p n Hp Hs. destruct (decide (q = p)) as [-> | Hne].
  - rewrite lookup_insert_eq in Hp. congruence.
  - rewrite lookup_insert_ne in Hp by done. congruence.
Qed.

Lemma only_new_dirs_dirs_le s s' : only_new_dirs s s' -> dirs_le (fs s) (fs s').
Proof. intros (_ & _ & H & _). by apply dirs_le_subseteq. Qed.

Lemma only_new_dirs_cwd s s' : only_new_dirs s s' -> cwd s' = cwd s.
Proof. by intros ((_ & _ & _ & H) & _). Qed.

(** [os.mkdir] either adds one directory where nothing was, or raises and
    changes nothing. *)
Lemma os_mkdir_cases p s r s' :
  os_mkdir p s = (r, s') ->
  (r = Ok tt /\ exists q, resolve s (mkdir_name p) = Ok q /\
     node_at (fs s) q = None /\ s' = set_fs s (<[q := Dir]> (fs s))) \/
  (exists e, r = Raise e /\ s' = s /\
     (e = FileExistsError /\ (exists q n, resolve s (mkdir_name p) = Ok q /\
                                 node_at (fs s) q = Some n) \/
      resolve s (mkdir_name p) = Raise e)).
Proof.
  unfold os_mkdir. destruct (resolve s (mkdir_name p)) as [q|e] eqn:E.
  - destruct (node_at (fs s) q) as [n|] eqn:En; intros H; inversion H; subst.
    + right. exists FileExistsError. repeat split. left. split; [done |]. by exists q, n.
    + left. split; [done |]. by exists q.
  - intros H; inversion H; subst. right. exists e. repeat split. by right.
Qed.

Lemma mkdir_exist_ok_grows name ok s r s' :
  mkdir_exist_ok name ok s = (r, s') -> only_new_dirs s s'.
Proof.
  unfold mkdir_exist_ok, try_except.
  destruct (os_mkdir name s) as [r0 s0] eqn:E.
  apply os_mkdir_cases in E as [(-> & q & _ & Hn & ->) | (e & -> & -> & _)].
  - intros H; inversion H; subst. by apply only_new_dirs_mkdir.
  - destruct (is_OSError e).
    + unfold bind, path_isdir, raise, ret.
      destruct (negb ok || negb _); intros H; inversion H; apply only_new_dirs_refl.
    + intros H; inversion H; apply only_new_dirs_refl.
Qed.

(** When the last step returns, the name is a directory. *)
Lemma mkdir_exist_ok_returns name s s' :
  mkdir_name name = name ->
  mkdir_exist_ok name true s = (Ok tt, s') -> os_stat s' name = Ok Dir.
Proof.
  intros Hname. unfold mkdir_exist_ok, try_except.
  destruct (os_mkdir name s) as [r0 s0] eqn:E.
  apply os_mkdir_cases in E as [(-> & q & Hq & Hn & ->) | (e & -> & -> & _)].
  - intros H; inversion H; subst. rewrite Hname in Hq.
    pose proof (only_new_dirs_mkdir _ _ Hn) as Hg.
    apply node_at_None in Hn as [Hne _].
    eapply os_stat_intro.
    + eapply resolve_mono; [| by apply only_new_dirs_dirs_le | done]. done.
    + simpl. rewrite node_at_nonroot by done. apply lookup_insert_eq.
  - destruct (is_OSError e); [| done].
    unfold bind, path_isdir, raise, ret. simpl.
    destruct (os_stat s name) as [[|c]|e'] eqn:Es; simpl; intros H;
      inversion H; by subst.
Qed.

(** When the last step raises, nothing changed and the name is not a
    directory. *)
Lemma mkdir_exist_ok_raises name s e s' :
  mkdir_exist_ok name true s = (Raise e, s') ->
  s' = s /\ os_stat s name <> Ok Dir.
Proof.
  unfold mkdir_exist_ok, try_except.
  destruct (os_mkdir name s) as [r0 s0] eqn:E.
  apply os_mkdir_cases in E as [(-> & _) | (e0 & -> & -> & He)]; [done |].
  destruct (is_OSError e0) eqn:Eos.
  - unfold bind, path_isdir, raise, ret. simpl.
    destruct (os_stat s name) as [[|c]|e'] eqn:Es; simpl; intros H;
      inversion H; by subst.
  - intros H; inversion H; subst. split; [done |].
    destruct He as [[-> _] | He]; [done |].
    apply resolve_error in He as [-> | [-> | [_ Hnul]]]; [done .. |].
    apply mkdir_name_nul in Hnul. unfold os_stat.
    by rewrite (resolve_nul _ _ Hnul).
Qed.

(** On a name that is a directory the last step returns and changes
    nothing. *)
Lemma mkdir_exist_ok_existing name s :
  os_stat s name = Ok Dir -> mkdir_exist_ok name true s = (Ok tt, s).
Proof.
  intros H. destruct (resolve_mkdir_name _ _ H) as (q & Hq & Hn).
  unfold mkdir_exist_ok, try_except, os_mkdir. rewrite Hq, Hn. simpl.
  unfold bind, path_isdir. by rewrite H.
Qed.

(** The errors of the last step are the errors of path resolution and
    [FileExistsError]. *)
Lemma mkdir_exist_ok_error name ok s e s' :
  mkdir_exist_ok name ok s = (Raise e, s') -> e <> RecursionError.
Proof.
  unfold mkdir_exist_ok, try_except.
  destruct (os_mkdir name s) as [r0 s0] eqn:E.
  apply os_mkdir_cases in E as [(-> & _) | (e0 & -> & -> & He)]; [done |].
  assert (e0 <> RecursionError) as Hne.
  { destruct He as [[-> _] | He]; [done |].
    apply resolve_error in He as [-> | [-> | [-> _]]]; done. }
  destruct (is_OSError e0).
  - unfold bind, path_isdir, raise, ret.
    destruct (negb ok || negb _); intros H; inversion H; by subst.
  - intros H; inversion H; by subst.
Qed.

Lemma os_stat_mkdir_name_dir s name :
  os_stat s (mkdir_name name) = Ok Dir -> os_stat s name = Ok Dir.
Proof.
  unfold mkdir_name. destruct (rstrip_sep name) as [|c r] eqn:E; [done |].
  rewrite <- E. intros H. apply os_stat_inv in H as (q & Hq & Hd).
  destruct (rstrip_sep_decomp name) as [k Hk].
  destruct k as [|k]; [rewrite app_empty_r in Hk; rewrite Hk; by eapply os_stat_intro |].
  pose proof (resolve_nul_free _ _ _ Hq) as Hnul.
  assert (nonempty (rstrip_sep name) = true) as Hne by (by rewrite E).
  rewrite Hk. eapply os_stat_intro; [| exact Hd].
  revert Hq. unfold resolve, start_dir.
  rewrite existsb_app, Hnul, nonempty_app_l, startswith_sep_app, Hne by done.
  rewrite existsb_seps by done. simpl.
  rewrite split_sep_app_sep, <- (app_empty_r (seps k)), split_sep_seps_app, walk_app.
  intros ->. simpl. change (repeat "" k ++ [""]) with (repeat "" k ++ repeat "" 1).
  rewrite <- repeat_app. by apply walk_repeat_empty.
Qed.

(** The last step raises [FileExistsError] only over something that is not
    a directory. *)
Lemma mkdir_exist_ok_file_exists name s s' :
  mkdir_exist_ok name true s = (Raise FileExistsError, s') ->
  s' = s /\ exists c, os_stat s (mkdir_name name) = Ok (File c).
Proof.
  intros H. destruct (mkdir_exist_ok_raises _ _ _ _ H) as [-> Hnd].
  split; [done |]. revert H. unfold mkdir_exist_ok, try_except.
  destruct (os_mkdir name s) as [r0 s0] eqn:E.
  apply os_mkdir_cases in E as [(-> & _) | (e0 & -> & -> & He)]; [done |].
  intros H. assert (e0 = FileExistsError) as ->.
  { destruct (is_OSError e0); [| by inversion H].
    revert H. unfold bind, path_isdir, raise, ret. simpl.
    destruct (os_stat s name) as [[|c]|e']; simpl; intros H; by inversion H. }
  destruct He as [(_ & q & n & Hq & Hn) | He].
  - destruct n as [|c]; [| exists c; by eapply os_stat_intro].
    exfalso. apply Hnd, os_stat_mkdir_name_dir. by eapply os_stat_intro.
  - apply resolve_error in He as [? | [? | [? _]]]; done.
Qed.

End fs_calls.

(** ** Facts about [os.makedirs] *)

Section makedirs_facts.
Import PyStr.

(** The control flow of one call. *)
Lemma makedirs_rec_inv d name ok s r s' :
  makedirs_rec (S d) name ok s = (r, s') ->
  exists head tail, makedirs_head_tail name = (head, tail) /\
  (((nonempty head && nonempty tail = false \/ exists n, os_stat s head = Ok n) /\
    mkdir_exist_ok name ok s = (r, s')) \/
   (nonempty head = true /\ nonempty tail = true /\
    (exists e0, os_stat s head = Raise e0) /\
    exists r1 s1, makedirs_rec d head ok s = (r1, s1) /\
      ((exists e, r1 = Raise e /\ e <> FileExistsError /\ r = Raise e /\ s' = s1) \/
       ((r1 = Ok tt \/ r1 = Raise FileExistsError) /\
        ((tail = "." /\ r = Ok tt /\ s' = s1) \/
         (tail <> "." /\ mkdir_exist_ok name ok s1 = (r, s'))))))).
Proof.
  simpl. destruct (makedirs_head_tail name) as [head tail] eqn:E.
  intros H. exists head, tail. split; [done |].
  destruct (nonempty head && nonempty tail) eqn:C; [| left; split; [by left | done]].
  apply andb_true_iff in C as [Ch Ct].
  unfold bind at 1 in H. unfold path_exists in H.
  destruct (os_stat s head) as [n|e0] eqn:Es; simpl in H.
  { left. split; [right; by exists n | done]. }
  right. do 2 (split; [done |]). split; [by exists e0 |].
  unfold bind, try_except in H.
  destruct (makedirs_rec d head ok s) as [r1 s1] eqn:E1.
  exists r1, s1. split; [done |].
  destruct r1 as [[]|e].
  - right. split; [by left |]. unfold ret in H.
    destruct (bool_decide (tail = ".")) eqn:Et.
    + apply bool_decide_eq_true in Et. left. by inversion H.
    + apply bool_decide_eq_false in Et. by right.
  - destruct (bool_decide (e = FileExistsError)) eqn:Ee.
    + apply bool_decide_eq_true in Ee. subst e. right. split; [by right |].
      unfold ret in H.
      destruct (bool_decide (tail = ".")) eqn:Et.
      * apply bool_decide_eq_true in Et. left. by inversion H.
      * apply bool_decide_eq_false in Et. by right.
    + apply bool_decide_eq_false in Ee. left. exists e. by inversion H.
Qed.

(** [os.makedirs] only ever adds directories. *)
Lemma makedirs_rec_grows d name ok s r s' :
  makedirs_rec d name ok s = (r, s') -> only_new_dirs s s'.
Proof.
  revert name s r s'. induction d as [|d IH]; intros name s r s' H.
  - inversion H. apply only_new_dirs_refl.
  - apply makedirs_rec_inv in H as (head & tail & _ & [[_ H] | (_ & _ & _ & r1 & s1 & H1 & H)]).
    + by eapply mkdir_exist_ok_grows.
    + apply IH in H1.
      destruct H as [(e & _ & _ & _ & ->) | [_ [(_ & _ & ->) | [_ H]]]]; try done.
      eapply only_new_dirs_trans; [done |]. by eapply mkdir_exist_ok_grows.
Qed.

(** The depth [makedirs] starts with is never used up. *)
Lemma makedirs_rec_depth d1 d2 name ok s :
  String.length name < d1 -> String.length name < d2 ->
  makedirs_rec d1 name ok s = makedirs_rec d2 name ok s.
Proof.
  revert d2 name s. induction d1 as [|d1 IH]; intros d2 name s L1 L2; [lia |].
  destruct d2 as [|d2]; [lia |]. simpl.
  destruct (makedirs_head_tail name) as [head tail] eqn:E.
  destruct (nonempty head && nonempty tail) eqn:C; [| done].
  apply andb_true_iff in C as [_ Ct].
  pose proof (makedirs_head_shorter _ _ _ E Ct) as L.
  unfold bind at 1 3. destruct (path_exists head s) as [[[]|] s0] eqn:Ex; simpl; try done.
  unfold path_exists in Ex. inversion Ex; subst s0.
  unfold bind, try_except. rewrite (IH d2) by lia. done.
Qed.

Lemma makedirs_rec_no_recursion_error d name ok s r s' :
  String.length name < d ->
  makedirs_rec d name ok s = (r, s') -> r <> Raise RecursionError.
Proof.
  revert name s r s'. induction d as [|d IH]; intros name s r s' L H; [lia |].
  apply makedirs_rec_inv in H
    as (head & tail & E & [[_ H] | (_ & Ct & _ & r1 & s1 & H1 & H)]).
  - intros ->. by eapply mkdir_exist_ok_error.
  - pose proof (makedirs_head_shorter _ _ _ E Ct) as L'.
    apply IH in H1; [| lia].
    destruct H as [(e & -> & _ & -> & _) | [_ [(_ & -> & _) | [_ H]]]]; try done.
    intros ->. by eapply mkdir_exist_ok_error.
Qed.

(** When [os.makedirs] returns, the name is a directory. *)
Lemma makedirs_rec_returns d name s s' :
  mkdir_name name = name -> snd (makedirs_head_tail name) <> "." ->
  makedirs_rec d name true s = (Ok tt, s') -> os_stat s' name = Ok Dir.
Proof.
  intros Hname Htail H. destruct d as [|d]; [done |].
  apply makedirs_rec_inv in H
    as (head & tail & E & [[_ H] | (_ & _ & _ & r1 & s1 & _ & H)]).
  - by eapply mkdir_exist_ok_returns.
  - rewrite E in Htail. simpl in Htail.
    destruct H as [(e & _ & _ & ? & _) | [_ [(? & _) | [_ H]]]]; try done.
    by eapply mkdir_exist_ok_returns.
Qed.

(** On a name that is a directory [os.makedirs(name, exist_ok=True)]
    returns and changes nothing. *)
Lemma makedirs_rec_existing d name s :
  os_stat s name = Ok Dir -> makedirs_rec (S d) name true s = (Ok tt, s).
Proof.
  intros H. simpl. destruct (makedirs_head_tail name) as [head tail] eqn:E.
  destruct (nonempty head && nonempty tail) eqn:C;
    [| by apply mkdir_exist_ok_existing].
  apply andb_true_iff in C as [Ch Ct].
  destruct (os_stat_inv _ _ _ H) as (q & Hq & _).
  pose proof (stat_head _ _ _ _ _ E Ch Ct Hq) as Hh.
  unfold bind, path_exists. rewrite Hh. simpl.
  by apply mkdir_exist_ok_existing.
Qed.

(** When [os.makedirs(name, exist_ok=True)] raises, the name is not a
    directory. *)
Lemma makedirs_rec_raises d name s e s' :
  makedirs_rec d name true s = (Raise e, s') ->
  e = RecursionError \/ os_stat s' name <> Ok Dir.
Proof.
  revert name s e s'. induction d as [|d IH]; intros name s e s' H.
  - inversion H. by left.
  - apply makedirs_rec_inv in H
      as (head & tail & E & [[_ H] | (Ch & Ct & _ & r1 & s1 & H1 & H)]).
    + apply mkdir_exist_ok_raises in H as [-> H]. by right.
    + destruct H as [(e' & -> & _ & He & ->) | [_ [(_ & ? & _) | [_ H]]]]; try done.
      * inversion He; subst e'. apply IH in H1 as [-> | H1]; [by left |].
        right. intros Hn. apply os_stat_inv in Hn as (q & Hq & _).
        by apply H1, (stat_head _ _ _ _ _ E Ch Ct Hq).
      * apply mkdir_exist_ok_raises in H as [-> H]. by right.
Qed.

(** [os.makedirs(name, exist_ok=True)] raises [FileExistsError] only over
    something that is not a directory. *)
Lemma makedirs_rec_file_exists d name s s' :
  makedirs_rec d name true s = (Raise FileExistsError, s') ->
  exists c, os_stat s' (mkdir_name name) = Ok (File c).
Proof.
  intros H. destruct d as [|d]; [done |].
  apply makedirs_rec_inv in H
    as (head & tail & _ & [[_ H] | (_ & _ & _ & r1 & s1 & _ & H)]).
  - by apply mkdir_exist_ok_file_exists in H as [-> H].
  - destruct H as [(e & _ & He & Hr & _) | [_ [(_ & ? & _) | [_ H]]]]; try done.
    + by inversion Hr.
    + by apply mkdir_exist_ok_file_exists in H as [-> H].
Qed.

End makedirs_facts.

(** ** The steps of [main] *)

Section main_facts.
Import PyStr.

#[local] Arguments userhome : simpl never.

Lemma expanduser_wallet_dir s :
  expanduser "~/.dig/wallets/test-wallet" s = (Ok (wallet_dir s), s).
Proof.
  unfold expanduser, wallet_dir. simpl.
  destruct (userhome s "") as [home|]; [| done].
  by rewrite (nonempty_app_r (rstrip_sep home) "/.dig/wallets/test-wallet").
Qed.

Lemma wallet_dir_started s : wallet_dir (started s) = wallet_dir s.
Proof. reflexivity. Qed.

Lemma wallet_dir_form s : exists u, wallet_dir s = u +:+ "/.dig/wallets/test-wallet".
Proof.
  unfold wallet_dir. destruct (userhome s "") as [home|].
  - by exists (rstrip_sep home).
  - by exists "~".
Qed.

Lemma main_steps s :
  main s = (run makedirs (wallet_dir s) true; write_and_report (wallet_dir s)) (started s).
Proof.
  unfold main. unfold bind at 1.
  change (print "Importing wallet with provided mnemonic..." s) with (Ok tt, started s).
  cbv beta iota. unfold bind at 1. rewrite expanduser_wallet_dir.
  reflexivity.
Qed.

Lemma mkdir_name_wallet u :
  mkdir_name (u +:+ "/.dig/wallets/test-wallet") = u +:+ "/.dig/wallets/test-wallet".
Proof.
  unfold mkdir_name. rewrite rstrip_sep_app by done.
  change (rstrip_sep "/.dig/wallets/test-wallet") with "/.dig/wallets/test-wallet".
  by destruct (u +:+ "/.dig/wallets/test-wallet").
Qed.

Lemma tail_wallet u :
  snd (makedirs_head_tail (u +:+ "/.dig/wallets/test-wallet")) = "test-wallet".
Proof.
  change "/.dig/wallets/test-wallet" with ("/.dig/wallets" +:+ String "/" "test-wallet").
  rewrite <- app_assoc_str. by apply makedirs_head_tail_app_sep.
Qed.

Lemma path_join_wallet u :
  path_join (u +:+ "/.dig/wallets/test-wallet") "mnemonic.txt"
  = u +:+ "/.dig/wallets/test-wallet/mnemonic.txt".
Proof.
  unfold path_join. simpl.
  rewrite nonempty_app_r, endswith_sep_app by done. simpl.
  by rewrite app_assoc_str.
Qed.

(** The marker file is looked up in the wallet directory. *)
Lemma resolve_marker s w q :
  resolve s w = Ok q -> node_at (fs s) q = Some Dir ->
  resolve s (w +:+ "/mnemonic.txt") = Ok (q ++ ["mnemonic.txt"]).
Proof.
  intros Hq Hd. pose proof (resolve_nul_free _ _ _ Hq) as Hnul.
  pose proof (resolve_nonempty _ _ _ Hq) as Hne.
  unfold resolve, start_dir in *. rewrite Hnul, Hne in Hq. simpl in Hq.
  rewrite existsb_app, Hnul, nonempty_app_l, startswith_sep_app by done. simpl.
  rewrite split_sep_app_sep, walk_app, Hq. simpl. by rewrite Hd.
Qed.

Lemma dirs_le_insert_file (m : gmap (list string) node) q c :
  q <> [] -> m !! q <> Some Dir -> dirs_le m (<[q := File c]> m).
Proof.
  intros Hq Hn p Hp. destruct p as [|a p]; [done |]. simpl in *.
  rewrite lookup_insert_ne; [done |]. intros ->. done.
Qed.

(** [with open(p, "w") as f: f.write(MNEMONIC)] on a path that is not a
    directory. *)
Lemma write_marker s p q :
  resolve s p = Ok q -> q <> [] -> fs s !! q <> Some Dir ->
  with_open_w p (fun f => file_write f MNEMONIC) s
  = (Ok (String.length MNEMONIC), set_fs s (<[q := File MNEMONIC]> (fs s))).
Proof.
  intros Hq Hne Hn. unfold with_open_w, py_open_w. rewrite Hq.
  rewrite node_at_nonroot by done.
  assert (file_write q MNEMONIC (set_fs s (<[q := File ""]> (fs s)))
          = (Ok (String.length MNEMONIC), set_fs s (<[q := File MNEMONIC]> (fs s)))) as Hw.
  { unfold file_write. simpl. rewrite lookup_insert_eq.
    unfold set_fs. simpl. by rewrite insert_insert_eq. }
  destruct (fs s !! q) as [[|c]|] eqn:E; [done | |]; by rewrite Hw.
Qed.

Lemma py_open_w_raises p s e s' : py_open_w p s = (Raise e, s') -> s' = s.
Proof.
  unfold py_open_w. destruct (resolve s p) as [q|e0]; [| by intros H; inversion H].
  destruct (node_at (fs s) q) as [[|c]|]; intros H; by inversion H.
Qed.

Lemma snoc_nonnil {A} (l : list A) x : l ++ [x] <> [].
Proof. by destruct l. Qed.

(** What [main] does once the wallet directory is there. *)
Lemma write_and_report_dir s wd q :
  resolve s wd = Ok q -> node_at (fs s) q = Some Dir ->
  path_join wd "mnemonic.txt" = wd +:+ "/mnemonic.txt" ->
  (fs s !! (q ++ ["mnemonic.txt"]) <> Some Dir /\
   write_and_report wd s
   = (Ok tt, reported wd (set_fs s (<[q ++ ["mnemonic.txt"] := File MNEMONIC]> (fs s))))) \/
  (fs s !! (q ++ ["mnemonic.txt"]) = Some Dir /\
   write_and_report wd s = (Raise IsADirectoryError, s)).
Proof.
  intros Hq Hd Hj. pose proof (resolve_marker _ _ _ Hq Hd) as Hm.
  unfold write_and_report. rewrite Hj.
  destruct (decide (fs s !! (q ++ ["mnemonic.txt"]) = Some Dir)) as [Hf | Hf].
  - right. split; [done |]. unfold bind, with_open_w, py_open_w.
    by rewrite Hm, node_at_snoc, Hf.
  - left. split; [done |]. unfold bind at 1.
    by rewrite (write_marker _ _ _ Hm (snoc_nonnil _ _) Hf).
Qed.

End main_facts.

(** ** Runs of [main] *)

Section main_runs.
Import PyStr.

Lemma os_stat_rstrip s h x :
  os_stat s (h +:+ String "/" x) = os_stat s (rstrip_sep h +:+ String "/" x).
Proof. unfold os_stat. by rewrite resolve_rstrip. Qed.

Lemma wallet_dir_home s home :
  userhome s "" = Some home ->
  wallet_dir s = rstrip_sep home +:+ "/.dig/wallets/test-wallet".
Proof. unfold wallet_dir. by intros ->. Qed.

Lemma path_join_wallet_dir s :
  path_join (wallet_dir s) "mnemonic.txt" = wallet_dir s +:+ "/mnemonic.txt".
Proof.
  destruct (wallet_dir_form s) as [u ->].
  by rewrite path_join_wallet, app_assoc_str.
Qed.

Lemma makedirs_wallet_returns s s1 :
  makedirs (wallet_dir s) true (started s) = (Ok tt, s1) ->
  os_stat s1 (wallet_dir s) = Ok Dir.
Proof.
  destruct (wallet_dir_form s) as [u Hu]. rewrite Hu. unfold makedirs.
  apply makedirs_rec_returns; [apply mkdir_name_wallet |].
  by rewrite tail_wallet.
Qed.

Lemma makedirs_raises name s e s' :
  makedirs name true s = (Raise e, s') -> os_stat s' name <> Ok Dir.
Proof.
  unfold makedirs. intros H.
  pose proof (makedirs_rec_no_recursion_error _ _ _ _ _ _ (Nat.lt_succ_diag_r _) H) as Hne.
  apply makedirs_rec_raises in H as [-> | H]; done.
Qed.

(** Every run of [main]: [os.makedirs] raises, or it returns and the wallet
    directory is there; then the file is written, unless a directory has
    its name. *)
Lemma main_inv s r s' :
  main s = (r, s') ->
  (exists e, r = Raise e /\ makedirs (wallet_dir s) true (started s) = (Raise e, s')) \/
  (exists s1 q,
     makedirs (wallet_dir s) true (started s) = (Ok tt, s1) /\
     resolve s1 (wallet_dir s) = Ok q /\ node_at (fs s1) q = Some Dir /\
     ((fs s1 !! (q ++ ["mnemonic.txt"]) <> Some Dir /\ r = Ok tt /\
       s' = reported (wallet_dir s)
              (set_fs s1 (<[q ++ ["mnemonic.txt"] := File MNEMONIC]> (fs s1)))) \/
      (fs s1 !! (q ++ ["mnemonic.txt"]) = Some Dir /\
       r = Raise IsADirectoryError /\ s' = s1))).
Proof.
  rewrite main_steps. unfold bind at 1.
  destruct (makedirs (wallet_dir s) true (started s)) as [[[]|e] s1] eqn:E.
  - intros H. right. exists s1.
    pose proof (makedirs_wallet_returns _ _ E) as Hd.
    apply os_stat_inv in Hd as (q & Hq & Hd). exists q. do 3 (split; [done |]).
    destruct (write_and_report_dir s1 _ _ Hq Hd (path_join_wallet_dir s))
      as [[Hf Hw] | [Hf Hw]]; rewrite Hw in H; inversion H; subst; auto.
  - intros H. inversion H; subst. left. by exists e.
Qed.

(** A run in a state where the wallet directory is there already. *)
Lemma main_existing s q :
  resolve s (wallet_dir s) = Ok q -> node_at (fs s) q = Some Dir ->
  fs s !! (q ++ ["mnemonic.txt"]) <> Some Dir ->
  main s = (Ok tt, reported (wallet_dir s)
                     (set_fs (started s)
                        (<[q ++ ["mnemonic.txt"] := File MNEMONIC]> (fs s)))).
Proof.
  intros Hq Hd Hf. rewrite main_steps. unfold bind at 1, makedirs.
  rewrite makedirs_rec_existing by (by eapply (os_stat_intro s)).
  destruct (write_and_report_dir (started s) _ _ Hq Hd (path_join_wallet_dir s))
    as [[_ Hw] | [Hf' _]]; done.
Qed.

(** After a run that returns, the marker file holds the secret. *)
Lemma main_marker s s' :
  main s = (Ok tt, s') ->
  os_stat s' (wallet_dir s +:+ "/mnemonic.txt") = Ok (File MNEMONIC).
Proof.
  intros H. apply main_inv in H as [(e & ? & _) | (s1 & q & _ & Hq & Hd & H)]; [done |].
  destruct H as [(Hf & _ & ->) | (_ & ? & _)]; [| done].
  pose proof (dirs_le_insert_file (fs s1) _ MNEMONIC (snoc_nonnil q "mnemonic.txt") Hf) as Hle.
  eapply os_stat_intro.
  - apply resolve_marker.
    + eapply (resolve_mono s1); [done | exact Hle | done].
    + by apply Hle.
  - simpl. rewrite node_at_snoc. apply lookup_insert_eq.
Qed.

Lemma marker_path_home s home :
  userhome s "" = Some home -> forall s',
  os_stat s' (home +:+ "/.dig/wallets/test-wallet/mnemonic.txt")
  = os_stat s' (wallet_dir s +:+ "/mnemonic.txt").
Proof.
  intros Hh s'. rewrite (wallet_dir_home _ _ Hh), app_assoc_str.
  apply (os_stat_rstrip s' home ".dig/wallets/test-wallet/mnemonic.txt").
Qed.

End main_runs.

(** ** The properties of the specification *)

Section properties.
Import PyStr.

#[local] Arguments userhome : simpl never.

Lemma same_env_wallet_dir s s' : same_env s s' -> wallet_dir s' = wallet_dir s.
Proof.
  intros (He & Hp & Hu & _). unfold wallet_dir, userhome, getpwuid.
  by rewrite He, Hp, Hu.
Qed.

Lemma makedirs_started s name r s1 :
  makedirs name true (started s) = (r, s1) ->
  same_env s s1 /\ cwd s1 = cwd s /\ fs s ⊆ fs s1 /\
  stdout s1 = stdout s +:+ "Importing wallet with provided mnemonic..." +:+ newline /\
  (forall q c, fs s1 !! q = Some (File c) -> fs s !! q = Some (File c)).
Proof.
  intros H. apply makedirs_rec_grows in H as (He & Ho & Hs & Hn).
  split; [exact He |]. split; [apply He |]. split; [exact Hs |]. split; [exact Ho |].
  intros q c Hq. destruct (fs (started s) !! q) as [n|] eqn:E.
  - pose proof (lookup_weaken _ _ _ _ E Hs). simpl in *. congruence.
  - by specialize (Hn _ _ Hq E).
Qed.

(** Where the marker file is after a run that returned. *)
Lemma main_marker_resolve s1 wd q :
  resolve s1 wd = Ok q -> node_at (fs s1) q = Some Dir ->
  fs s1 !! (q ++ ["mnemonic.txt"]) <> Some Dir ->
  resolve (reported wd (set_fs s1 (<[q ++ ["mnemonic.txt"] := File MNEMONIC]> (fs s1))))
          (wd +:+ "/mnemonic.txt")
  = Ok (q ++ ["mnemonic.txt"]).
Proof.
  intros Hq Hd Hf.
  pose proof (dirs_le_insert_file (fs s1) _ MNEMONIC (snoc_nonnil q "mnemonic.txt") Hf) as Hle.
  apply resolve_marker.
  - eapply (resolve_mono s1); [done | exact Hle | done].
  - by apply Hle.
Qed.

(** C1: after a run of [main] that returns, with home directory [home], the
    file [home/.dig/wallets/test-wallet/mnemonic.txt] exists and holds the
    secret phrase and nothing else: not a byte more or less, and no newline
    at its end. *)
Theorem marker_file_holds_mnemonic s s' home :
  userhome s "" = Some home ->
  main s = (Ok tt, s') ->
  os_stat s' (home +:+ "/.dig/wallets/test-wallet/mnemonic.txt")
  = Ok (File "provide verb sheriff tragic arrow bless still empty gesture senior pause tobacco creek giggle pair crisp glow divide boost endless elite fiction cup arena").
Proof.
  intros Hh H. rewrite (marker_path_home _ _ Hh). by apply main_marker.
Qed.

Lemma marker_file_holds_mnemonic_witness :
  os_stat (snd (main st_clean)) "/tmp/fakehome/.dig/wallets/test-wallet/mnemonic.txt"
  = Ok (File MNEMONIC).
Proof.
  apply (marker_file_holds_mnemonic st_clean (snd (main st_clean)) "/tmp/fakehome").
  - reflexivity.
  - vm_compute. reflexivity.
Defined.

(** C6: whatever the file [home/.dig/wallets/test-wallet/mnemonic.txt] held
    before, the run returns and the file then holds the secret phrase alone:
    the old contents are cut off when the file is opened, nothing is
    appended to them. *)
Theorem marker_file_overwritten s home old :
  userhome s "" = Some home ->
  os_stat s (home +:+ "/.dig/wallets/test-wallet/mnemonic.txt") = Ok (File old) ->
  exists s', main s = (Ok tt, s') /\
    os_stat s' (home +:+ "/.dig/wallets/test-wallet/mnemonic.txt") = Ok (File MNEMONIC).
Proof.
  intros Hh Hold. rewrite (marker_path_home _ _ Hh) in Hold.
  apply os_stat_inv in Hold as (qf & Hqf & Hn).
  destruct (wallet_dir_form s) as [u Hu].
  assert (nonempty (wallet_dir s) = true) as Hne by (rewrite Hu; by apply nonempty_app_r).
  pose proof (resolve_parent _ _ _ _ Hne Hqf) as Hd.
  apply os_stat_inv in Hd as (q & Hq & Hd).
  rewrite (resolve_marker _ _ _ Hq Hd) in Hqf. inversion Hqf; subst qf.
  rewrite node_at_snoc in Hn.
  eexists. split.
  - apply (main_existing s q Hq Hd). by rewrite Hn.
  - rewrite (marker_path_home _ _ Hh). eapply main_marker.
    apply (main_existing s q Hq Hd). by rewrite Hn.
Qed.

Lemma marker_file_overwritten_witness :
  exists s', main st_old = (Ok tt, s') /\
    os_stat s' "/tmp/fakehome//.dig/wallets/test-wallet/mnemonic.txt" = Ok (File MNEMONIC).
Proof.
  apply (marker_file_overwritten st_old "/tmp/fakehome/"
           "abandon abandon about and a much longer text than the secret phrase, to see that nothing of it is left behind once the file has been written again, whatever its length was before the run").
  - reflexivity.
  - vm_compute. reflexivity.
Defined.

(** C4: when a run of [main] returns, a second run right after it returns
    too and leaves the file system as the first run left it: the same
    directories and the same file contents. *)
Theorem main_idempotent s s1 :
  main s = (Ok tt, s1) ->
  exists s2, main s1 = (Ok tt, s2) /\ fs s2 = fs s1.
Proof.
  intros H. apply main_inv in H as [(e & ? & _) | (sa & q & Hm & Hq & Hd & H)]; [done |].
  destruct H as [(Hf & _ & ->) | (_ & ? & _)]; [| done].
  apply makedirs_started in Hm as (He & _).
  set (qf := q ++ ["mnemonic.txt"]) in *.
  set (s1 := reported (wallet_dir s) (set_fs sa (<[qf := File MNEMONIC]> (fs sa)))).
  pose proof (dirs_le_insert_file (fs sa) _ MNEMONIC (snoc_nonnil q "mnemonic.txt") Hf) as Hle.
  assert (wallet_dir s1 = wallet_dir s) as Hw by (by apply same_env_wallet_dir).
  assert (resolve s1 (wallet_dir s1) = Ok q) as Hq1.
  { rewrite Hw. eapply (resolve_mono sa); [done | exact Hle | done]. }
  assert (node_at (fs s1) q = Some Dir) as Hd1 by (by apply Hle).
  assert (fs s1 !! qf = Some (File MNEMONIC)) as Hf1 by apply lookup_insert_eq.
  eexists. split.
  - apply (main_existing s1 q Hq1 Hd1). fold qf. by rewrite Hf1.
  - simpl. fold qf. by apply insert_id.
Qed.

Lemma main_idempotent_witness :
  exists s2, main (snd (main st_clean)) = (Ok tt, s2) /\ fs s2 = fs (snd (main st_clean)).
Proof.
  apply (main_idempotent st_clean (snd (main st_clean))).
  vm_compute. reflexivity.
Defined.

Lemma print_started s s0 :
  print "Importing wallet with provided mnemonic..." s = (Ok tt, s0) -> s0 = started s.
Proof. intros H. by inversion H. Qed.

Lemma expanduser_started s wd s0 :
  expanduser "~/.dig/wallets/test-wallet" (started s) = (Ok wd, s0) ->
  wd = wallet_dir s /\ s0 = started s.
Proof. rewrite expanduser_wallet_dir. intros H. by inversion H. Qed.

(** C5: when the directory creation raises, the exception ends the run: the
    process exits with a status that is not 0, in the state the directory
    creation left, so the file is never opened; the marker file does not
    exist afterwards and no regular file was created or changed. *)
Theorem makedirs_failure_aborts s s0 wd e s1 :
  print "Importing wallet with provided mnemonic..." s = (Ok tt, s0) ->
  expanduser "~/.dig/wallets/test-wallet" s0 = (Ok wd, s0) ->
  makedirs wd true s0 = (Raise e, s1) ->
  main s = (Raise e, s1) /\
  script s = (1%Z, s1) /\ fst (script s) <> 0%Z /\
  (forall n, os_stat s1 (path_join wd "mnemonic.txt") <> Ok n) /\
  (forall q c, fs s1 !! q = Some (File c) <-> fs s !! q = Some (File c)).
Proof.
  intros Hp He Hm. apply print_started in Hp. subst s0.
  apply expanduser_started in He as [-> _].
  assert (main s = (Raise e, s1)) as Hmain.
  { rewrite main_steps. unfold bind at 1. by rewrite Hm. }
  split; [done |]. unfold script. rewrite Hmain. simpl.
  do 2 (split; [done |]). split.
  - intros n Hn. rewrite path_join_wallet_dir in Hn.
    apply os_stat_inv in Hn as (qf & Hqf & _).
    destruct (wallet_dir_form s) as [u Hu].
    assert (nonempty (wallet_dir s) = true) as Hne by (rewrite Hu; by apply nonempty_app_r).
    by apply (makedirs_raises _ _ _ _ Hm), (resolve_parent _ _ _ _ Hne Hqf).
  - apply makedirs_started in Hm as (_ & _ & Hs & _ & Hf).
    intros q c. split; [apply Hf |]. intros Hq. by eapply lookup_weaken.
Qed.

Lemma makedirs_failure_aborts_witness :
  main st_blocked = (Raise NotADirectoryError, started st_blocked) /\
  fst (script st_blocked) <> 0%Z.
Proof.
  pose proof (makedirs_failure_aborts st_blocked (started st_blocked)
                "/tmp/fakehome/.dig/wallets/test-wallet" NotADirectoryError
                (started st_blocked)) as H.
  destruct H as (H1 & _ & H2 & _).
  - reflexivity.
  - reflexivity.
  - vm_compute. reflexivity.
  - split; [exact H1 | exact H2].
Defined.

(** C7: in every run the directory creation comes before the file is opened:
    [main] is the directory creation followed, in the state it returns, by
    the writing of the file, and by nothing when it raises.  In that state
    the wallet directory is a directory and so is every ancestor its name
    goes through.  Whatever the run does, an entry the file system had before
    it is still there unchanged after it, the marker file alone excepted. *)
Theorem wallet_dir_exists_before_write s s0 wd :
  print "Importing wallet with provided mnemonic..." s = (Ok tt, s0) ->
  expanduser "~/.dig/wallets/test-wallet" s0 = (Ok wd, s0) ->
  main s = (run makedirs wd true; write_and_report wd) s0 /\
  (forall e s1, makedirs wd true s0 = (Raise e, s1) -> main s = (Raise e, s1)) /\
  (forall s1, makedirs wd true s0 = (Ok tt, s1) ->
     main s = write_and_report wd s1 /\
     os_stat s1 wd = Ok Dir /\
     forall p x, wd = p +:+ String "/" x -> nonempty p = true -> os_stat s1 p = Ok Dir) /\
  (forall r s', main s = (r, s') ->
     forall q n, fs s !! q = Some n ->
       fs s' !! q = Some n \/
       (exists c, n = File c /\ resolve s' (path_join wd "mnemonic.txt") = Ok q)).
Proof.
  intros Hp He. apply print_started in Hp. subst s0.
  apply expanduser_started in He as [-> _].
  split; [apply main_steps |]. split; [| split].
  - intros e s1 Hm. rewrite main_steps. unfold bind at 1. by rewrite Hm.
  - intros s1 Hm. split.
    { rewrite main_steps. unfold bind at 1. by rewrite Hm. }
    pose proof (makedirs_wallet_returns _ _ Hm) as Hd. split; [done |].
    intros p x Hwd Hne. apply os_stat_inv in Hd as (q & Hq & _).
    rewrite Hwd in Hq. by eapply resolve_parent.
  - intros r s' H q0 n Hn.
    apply main_inv in H as [(e & _ & Hm) | (s1 & q & Hm & Hq & Hd & H)].
    + left. apply makedirs_started in Hm as (_ & _ & Hs & _).
      by eapply lookup_weaken.
    + apply makedirs_started in Hm as (_ & _ & Hs & _).
      pose proof (lookup_weaken _ _ _ _ Hn Hs) as Hn1.
      destruct H as [(Hf & _ & ->) | (_ & _ & ->)]; [| by left].
      destruct (decide (q ++ ["mnemonic.txt"] = q0)) as [<- | Hne].
      * right. destruct n as [|c]; [done |]. exists c. split; [done |].
        rewrite path_join_wallet_dir. by apply main_marker_resolve.
      * left. simpl. by rewrite lookup_insert_ne.
Qed.

Lemma wallet_dir_exists_before_write_witness :
  os_stat (snd (makedirs "/tmp/fakehome/.dig/wallets/test-wallet" true (started st_clean)))
          "/tmp/fakehome/.dig/wallets/test-wallet" = Ok Dir.
Proof.
  destruct (wallet_dir_exists_before_write st_clean (started st_clean)
              "/tmp/fakehome/.dig/wallets/test-wallet") as (_ & _ & H & _).
  - reflexivity.
  - reflexivity.
  - apply H. vm_compute. reflexivity.
Defined.

(** C8: [os.makedirs(name, exist_ok=True)] takes no offence at directories
    that exist.  On a name that is a directory already it returns and
    changes nothing.  When it raises, the name is not a directory, neither
    before the call nor after it; and when what it raises is
    [FileExistsError], a regular file has the name.  Every directory there
    was before the call, an ancestor of the name or not, is a directory
    after it. *)
Theorem makedirs_exist_ok name s :
  (os_stat s name = Ok Dir -> makedirs name true s = (Ok tt, s)) /\
  (forall e s', makedirs name true s = (Raise e, s') ->
     os_stat s name <> Ok Dir /\ os_stat s' name <> Ok Dir) /\
  (forall s', makedirs name true s = (Raise FileExistsError, s') ->
     exists c, os_stat s' (mkdir_name name) = Ok (File c)) /\
  (forall r s' p, makedirs name true s = (r, s') ->
     os_stat s p = Ok Dir -> os_stat s' p = Ok Dir).
Proof.
  split; [| split; [| split]].
  - intros H. by apply makedirs_rec_existing.
  - intros e s' H. split; [| by eapply makedirs_raises].
    intros Hd. unfold makedirs in H.
    by rewrite (makedirs_rec_existing _ _ _ Hd) in H.
  - intros s' H. by eapply makedirs_rec_file_exists.
  - intros r s' p H Hd. apply makedirs_rec_grows in H.
    eapply os_stat_dir_mono; [| | done].
    + by apply only_new_dirs_cwd.
    + by apply only_new_dirs_dirs_le.
Qed.

Lemma makedirs_exist_ok_witness :
  makedirs "/tmp/fakehome/.dig/wallets/test-wallet" true st_old = (Ok tt, st_old) /\
  os_stat st_blocked "/tmp/fakehome/.dig/wallets/test-wallet" <> Ok Dir.
Proof.
  split.
  - apply (proj1 (makedirs_exist_ok "/tmp/fakehome/.dig/wallets/test-wallet" st_old)).
    vm_compute. reflexivity.
  - apply (proj1 (proj2 (makedirs_exist_ok "/tmp/fakehome/.dig/wallets/test-wallet"
                           st_blocked)) NotADirectoryError st_blocked).
    vm_compute. reflexivity.
Defined.

Lemma stdout_reported wd s m :
  stdout (reported wd (set_fs s m))
  = (stdout s +:+ ("Created wallet marker at: " +:+ wd) +:+ newline)
    +:+ "Mnemonic saved for testing purposes" +:+ newline.
Proof. reflexivity. Qed.

Lemma count_app f a b : count f (a +:+ b) = count f a + count f b.
Proof. induction a as [|c a IH]; simpl; [done | rewrite IH; lia]. Qed.

(** C9, as the code has it: a run that raises has written the first status
    line, ["Importing wallet with provided mnemonic..."], to standard output
    and nothing after it; the two lines that report the marker are not
    written. *)
Theorem failing_run_output s e s' :
  main s = (Raise e, s') ->
  stdout s' = stdout s +:+ "Importing wallet with provided mnemonic..." +:+ newline.
Proof.
  intros H. apply main_inv in H as [(e' & _ & Hm) | (s1 & q & Hm & _ & _ & H)].
  - by apply makedirs_started in Hm as (_ & _ & _ & Ho & _).
  - destruct H as [(_ & ? & _) | (_ & _ & ->)]; [done |].
    by apply makedirs_started in Hm as (_ & _ & _ & Ho & _).
Qed.

Lemma failing_run_output_witness :
  stdout (snd (main st_blocked))
  = stdout st_blocked +:+ "Importing wallet with provided mnemonic..." +:+ newline.
Proof.
  apply (failing_run_output st_blocked NotADirectoryError (snd (main st_blocked))).
  vm_compute. reflexivity.
Defined.

(** C9 as stated fails: a run that raises has written to standard output. *)
Lemma failing_run_not_silent :
  ~ (forall s e s', main s = (Raise e, s') -> stdout s' = stdout s).
Proof.
  intros H.
  specialize (H st_blocked NotADirectoryError (snd (main st_blocked))).
  assert (main st_blocked = (Raise NotADirectoryError, snd (main st_blocked))) as Hm
    by (vm_compute; reflexivity).
  specialize (H Hm). vm_compute in H. discriminate H.
Qed.

(** C2, as the code has it: a run that returns has written three lines to
    standard output, the second of which is ["Created wallet marker at: "]
    followed by the wallet directory as [expanduser] gave it, which is the
    home directory without its trailing separators and
    ["/.dig/wallets/test-wallet"]. *)
Theorem successful_run_output s s' wd :
  expanduser "~/.dig/wallets/test-wallet" s = (Ok wd, s) ->
  main s = (Ok tt, s') ->
  stdout s' = stdout s +:+ "Importing wallet with provided mnemonic..." +:+ newline
                       +:+ "Created wallet marker at: " +:+ wd +:+ newline
                       +:+ "Mnemonic saved for testing purposes" +:+ newline /\
  (forall home, userhome s "" = Some home ->
     wd = rstrip_sep home +:+ "/.dig/wallets/test-wallet") /\
  (count_lines wd = 0 ->
   count_lines ("Importing wallet with provided mnemonic..." +:+ newline
                +:+ "Created wallet marker at: " +:+ wd +:+ newline
                +:+ "Mnemonic saved for testing purposes" +:+ newline) = 3).
Proof.
  rewrite expanduser_wallet_dir. intros He H. inversion He; subst wd; clear He.
  split; [| split].
  - apply main_inv in H as [(e' & ? & _) | (s1 & q & Hm & _ & _ & H)]; [done |].
    destruct H as [(_ & _ & ->) | (_ & ? & _)]; [| done].
    apply makedirs_started in Hm as (_ & _ & _ & Ho & _).
    rewrite stdout_reported, Ho. by rewrite !app_assoc_str.
  - intros home Hh. by apply wallet_dir_home.
  - intros Hc. unfold count_lines in *.
    rewrite !count_app, Hc. reflexivity.
Qed.

Lemma successful_run_output_witness :
  stdout (snd (main st_clean))
  = "Importing wallet with provided mnemonic..." +:+ newline
    +:+ "Created wallet marker at: /tmp/fakehome/.dig/wallets/test-wallet" +:+ newline
    +:+ "Mnemonic saved for testing purposes" +:+ newline.
Proof.
  apply (successful_run_output st_clean (snd (main st_clean))
           "/tmp/fakehome/.dig/wallets/test-wallet").
  - reflexivity.
  - vm_compute. reflexivity.
Defined.

(** C2 as stated fails: a run that returns writes three lines, not two. *)
Lemma successful_run_not_two_lines :
  ~ (forall s s', main s = (Ok tt, s') ->
       count_lines (stdout s') = count_lines (stdout s) + 2).
Proof.
  intros H. specialize (H st_clean (snd (main st_clean))).
  assert (main st_clean = (Ok tt, snd (main st_clean))) as Hm
    by (vm_compute; reflexivity).
  specialize (H Hm). vm_compute in H. discriminate H.
Qed.

Lemma userhome_unresolved s :
  environ s !! "HOME" = None -> getpwuid s (uid s) = None -> userhome s "" = None.
Proof. unfold userhome. by intros -> ->. Qed.

(** C3, as the code has it: when the home directory cannot be determined,
    its resolution raises nothing and changes nothing: [expanduser] returns
    ["~/.dig/wallets/test-wallet"] as it is, and the run goes on to the
    directory creation with that path. *)
Theorem unresolved_home_no_error s :
  environ s !! "HOME" = None -> getpwuid s (uid s) = None ->
  expanduser "~/.dig/wallets/test-wallet" s = (Ok "~/.dig/wallets/test-wallet", s) /\
  main s = (run makedirs "~/.dig/wallets/test-wallet" true;
            write_and_report "~/.dig/wallets/test-wallet") (started s).
Proof.
  intros H1 H2. pose proof (userhome_unresolved _ H1 H2) as Hu.
  assert (wallet_dir s = "~/.dig/wallets/test-wallet") as Hw
    by (unfold wallet_dir; by rewrite Hu).
  split.
  - by rewrite expanduser_wallet_dir, Hw.
  - by rewrite main_steps, Hw.
Qed.

Lemma unresolved_home_no_error_witness :
  expanduser "~/.dig/wallets/test-wallet" st_nohome
  = (Ok "~/.dig/wallets/test-wallet", st_nohome).
Proof.
  apply (unresolved_home_no_error st_nohome); reflexivity.
Defined.

(** C3 as stated fails: without a home directory the run can return, and
    change the file system. *)
Lemma unresolved_home_run_returns :
  ~ (forall s, environ s !! "HOME" = None -> getpwuid s (uid s) = None ->
       exists e s', main s = (Raise e, s') /\ fs s' = fs s).
Proof.
  intros H. destruct (H st_nohome eq_refl eq_refl) as (e & s' & Hm & _).
  vm_compute in Hm. discriminate Hm.
Qed.

(** *** Runs that return *)

Lemma plain_name_inv t :
  plain_name t = true ->
  nonempty t = true /\ existsb is_sep t = false /\ existsb is_nul t = false /\
  t <> "." /\ forall cur, step cur t = cur ++ [t].
Proof.
  unfold plain_name. rewrite !andb_true_iff, !negb_true_iff.
  intros ((((H1 & H2) & H3) & H4) & H5).
  do 3 (split; [done |]). split; [by apply bool_decide_eq_false in H4 |].
  intros cur. unfold step. rewrite H4, H5.
  rewrite (bool_decide_eq_false_2 (t = "")) by (by destruct t). done.
Qed.

(** A plain name under a directory is looked up in that directory. *)
Lemma resolve_child s w t q :
  plain_name t = true ->
  resolve s w = Ok q -> node_at (fs s) q = Some Dir ->
  resolve s (w +:+ String "/" t) = Ok (q ++ [t]).
Proof.
  intros Ht Hq Hd. apply plain_name_inv in Ht as (_ & Hsep & Hn & _ & Hstep).
  pose proof (resolve_nul_free _ _ _ Hq) as Hnul.
  pose proof (resolve_nonempty _ _ _ Hq) as Hne.
  unfold resolve, start_dir in *. rewrite Hnul, Hne in Hq. simpl in Hq.
  rewrite existsb_app, Hnul, nonempty_app_l, startswith_sep_app by done. simpl.
  rewrite Hn. rewrite split_sep_app_sep, walk_app, Hq, (split_sep_nosep _ Hsep).
  simpl. by rewrite Hd, Hstep.
Qed.

Lemma free_or_dir_grows s s' p :
  only_new_dirs s s' -> free_or_dir (fs s) p -> free_or_dir (fs s') p.
Proof.
  intros (_ & _ & Hs & Hn) [H | H].
  - destruct (fs s' !! p) as [n|] eqn:E; [| by left].
    right. by rewrite (Hn _ _ E H) in E.
  - right. by eapply lookup_weaken.
Qed.

(** The last step of [os.makedirs] on a name that is free or a directory. *)
Lemma mkdir_exist_ok_creates name s q :
  mkdir_name name = name -> q <> [] ->
  resolve s name = Ok q -> free_or_dir (fs s) q ->
  exists s', mkdir_exist_ok name true s = (Ok tt, s') /\
    resolve s' name = Ok q /\ node_at (fs s') q = Some Dir /\
    forall k, k <> q -> fs s' !! k = fs s !! k.
Proof.
  intros Hname Hne Hq [Hf | Hf].
  - exists (set_fs s (<[q := Dir]> (fs s))).
    assert (node_at (fs s) q = None) as Hn by (by rewrite node_at_nonroot).
    split; [| split; [| split]].
    + unfold mkdir_exist_ok, try_except, os_mkdir. by rewrite Hname, Hq, Hn.
    + eapply (resolve_mono s); [done | | done].
      apply only_new_dirs_dirs_le. by apply only_new_dirs_mkdir.
    + simpl. rewrite node_at_nonroot by done. apply lookup_insert_eq.
    + intros k Hk. simpl. by rewrite lookup_insert_ne.
  - exists s. assert (node_at (fs s) q = Some Dir) as Hn by (by rewrite node_at_nonroot).
    split; [| done]. apply mkdir_exist_ok_existing. by eapply os_stat_intro.
Qed.

(** One more level: when [os.makedirs] makes the head a directory, it makes
    the name one, provided the place of the name is free or a directory. *)
Lemma makedirs_extend d name head tail q s s1 :
  makedirs_head_tail name = (head, tail) ->
  nonempty head = true -> plain_name tail = true ->
  mkdir_name name = name ->
  (forall s', resolve s' head = Ok q -> node_at (fs s') q = Some Dir ->
     resolve s' name = Ok (q ++ [tail])) ->
  ensured d head s s1 q ->
  free_or_dir (fs s) (q ++ [tail]) ->
  exists s2, ensured (S d) name s s2 (q ++ [tail]).
Proof.
  intros E Hh Ht Hname Hres (Hm & Hq & Hd & Hk) Hfree.
  apply plain_name_inv in Ht as (Hte & _ & _ & Hdot & _).
  pose proof (makedirs_rec_grows _ _ _ _ _ _ Hm) as Hg.
  destruct (mkdir_exist_ok_creates name s1 (q ++ [tail]) Hname (snoc_nonnil _ _)
              (Hres _ Hq Hd) (free_or_dir_grows _ _ _ Hg Hfree))
    as (s2 & Hmk & Hq2 & Hd2 & Hk2).
  assert (os_stat s head = Ok Dir -> s1 = s) as Hsame.
  { intros Hs. destruct d as [|d]; [done |].
    rewrite (makedirs_rec_existing _ _ _ Hs) in Hm. by inversion Hm. }
  exists s2. split; [| split; [done | split; [done |]]].
  - simpl. rewrite E, Hh, Hte. simpl.
    unfold bind at 1, path_exists.
    destruct (os_stat s head) as [n|e] eqn:Es; simpl.
    + assert (n = Dir) as ->.
      { apply os_stat_inv in Es as (q0 & Hq0 & Hn0).
        pose proof (resolve_mono _ _ _ _ (only_new_dirs_cwd _ _ Hg)
                      (only_new_dirs_dirs_le _ _ Hg) Hq0) as Hq1.
        rewrite Hq in Hq1. inversion Hq1; subst q0.
        destruct q as [|a q]; [simpl in Hn0; congruence |].
        simpl in Hn0, Hd. destruct Hg as (_ & _ & Hs & _).
        pose proof (lookup_weaken _ _ _ _ Hn0 Hs). congruence. }
      by rewrite <- (Hsame eq_refl) at 1.
    + unfold bind, try_except. rewrite Hm.
      by rewrite (bool_decide_eq_false_2 (tail = ".")).
  - intros k Hlen. rewrite length_app in Hlen. simpl in Hlen.
    rewrite Hk2, Hk; [done | lia |]. intros ->. rewrite length_app in Hlen.
    simpl in Hlen. lia.
Qed.

Lemma head_tail_child w t :
  rstrip_sep w = w -> nonempty w = true -> plain_name t = true ->
  makedirs_head_tail (w +:+ String "/" t) = (w, t).
Proof.
  intros Hw Hne Ht. apply plain_name_inv in Ht as (Hte & Hsep & _).
  unfold makedirs_head_tail, path_split.
  rewrite rpartition_sep_app_sep by done.
  assert (forallb is_sep (w +:+ "/") = false) as Hall.
  { apply not_true_is_false. intros H. apply rstrip_sep_empty_iff in H.
    change (w +:+ "/") with (w +:+ seps 1) in H.
    rewrite rstrip_sep_app_seps, Hw in H. by subst w. }
  rewrite (nonempty_app_l w "/" Hne), Hall, Hte. simpl.
  change (w +:+ "/") with (w +:+ seps 1). by rewrite rstrip_sep_app_seps, Hw.
Qed.

Lemma rstrip_sep_child w t :
  plain_name t = true -> rstrip_sep (w +:+ String "/" t) = w +:+ String "/" t.
Proof.
  intros Ht. apply plain_name_inv in Ht as (Hte & Hsep & _).
  assert (rstrip_sep (String "/" t) = String "/" t) as Hr.
  { destruct (rstrip_sep_decomp t) as [k Hk].
    assert (k = 0) as ->.
    { destruct k as [|k]; [done |]. rewrite Hk, existsb_app in Hsep.
      simpl in Hsep. by rewrite orb_true_r in Hsep. }
    rewrite app_empty_r in Hk. simpl. rewrite <- Hk. by destruct t. }
  rewrite rstrip_sep_app by (by rewrite Hr). by rewrite Hr.
Qed.

Lemma mkdir_name_child w t :
  plain_name t = true -> mkdir_name (w +:+ String "/" t) = w +:+ String "/" t.
Proof.
  intros Ht. unfold mkdir_name. rewrite rstrip_sep_child by done. by destruct w.
Qed.

(** One more level under a name that is not the root. *)
Lemma ensured_child d w t q s s1 :
  rstrip_sep w = w -> nonempty w = true -> plain_name t = true ->
  ensured d w s s1 q -> free_or_dir (fs s) (q ++ [t]) ->
  exists s2, ensured (S d) (w +:+ String "/" t) s s2 (q ++ [t]).
Proof.
  intros Hw Hne Ht He Hf.
  eapply makedirs_extend; try done.
  - by apply head_tail_child.
  - by apply mkdir_name_child.
  - intros s' Hq Hd. by apply resolve_child.
Qed.

Lemma makedirs_rec_S d name ok s :
  makedirs_rec (S d) name ok s =
  (let (head, tail) := makedirs_head_tail name in
   if nonempty head && nonempty tail then
     match os_stat s head with
     | Ok _ => mkdir_exist_ok name ok s
     | Raise _ =>
         match makedirs_rec d head ok s with
         | (Raise e, s1) =>
             if bool_decide (e = FileExistsError)
             then (if bool_decide (tail = ".") then ret tt else mkdir_exist_ok name ok) s1
             else (Raise e, s1)
         | (Ok _, s1) =>
             (if bool_decide (tail = ".") then ret tt else mkdir_exist_ok name ok) s1
         end
     end
   else mkdir_exist_ok name ok s).
Proof.
  simpl. destruct (makedirs_head_tail name) as [head tail].
  destruct (nonempty head && nonempty tail); [| done].
  unfold bind at 1, path_exists. destruct (os_stat s head); simpl; [done |].
  unfold bind, try_except. destruct (makedirs_rec d head ok s) as [[[]|e1] s1]; [done |].
  by destruct (bool_decide (e1 = FileExistsError)).
Qed.

(** More depth does not change what [os.makedirs] does. *)
Lemma makedirs_rec_deeper d name ok s r s' :
  makedirs_rec d name ok s = (r, s') -> r <> Raise RecursionError ->
  makedirs_rec (S d) name ok s = (r, s').
Proof.
  revert name s r s'. induction d as [|d IH]; intros name s r s' H Hr.
  { inversion H; by subst. }
  revert H. rewrite (makedirs_rec_S d), (makedirs_rec_S (S d)).
  destruct (makedirs_head_tail name) as [head tail].
  destruct (nonempty head && nonempty tail); [| done].
  destruct (os_stat s head); [done |].
  destruct (makedirs_rec d head ok s) as [r1 s1] eqn:E1.
  assert (r1 = Raise RecursionError \/ r1 <> Raise RecursionError) as [-> | Hne].
  { destruct r1 as [[]|e1]; [by right |].
    destruct (decide (e1 = RecursionError)) as [-> | He]; [by left | right; congruence]. }
  - simpl. intros H. inversion H; by subst.
  - by rewrite (IH _ _ _ _ E1 Hne).
Qed.

Lemma ensured_makedirs d name s s1 q :
  ensured d name s s1 q -> makedirs name true s = (Ok tt, s1).
Proof.
  intros (Hm & _). unfold makedirs.
  destruct (decide (String.length name < d)) as [Hlt | Hge].
  - by rewrite (makedirs_rec_depth _ d) by lia.
  - assert (exists n, S (String.length name) = n + d) as [n Hn]
      by (exists (S (String.length name) - d); lia).
    rewrite Hn. clear Hn Hge. induction n as [|n IH]; [done |].
    by apply makedirs_rec_deeper.
Qed.

(** A run in which the directory creation goes through and no directory has
    the name of the marker file returns. *)
Lemma main_returns d s s1 q :
  ensured d (wallet_dir s) (started s) s1 q ->
  fs s !! (q ++ ["mnemonic.txt"]) <> Some Dir ->
  main s = (Ok tt, reported (wallet_dir s)
                     (set_fs s1 (<[q ++ ["mnemonic.txt"] := File MNEMONIC]> (fs s1)))).
Proof.
  intros He Hf. pose proof (ensured_makedirs _ _ _ _ _ He) as Hm.
  destruct He as (_ & Hq & Hd & Hk).
  rewrite main_steps. unfold bind at 1. rewrite Hm.
  destruct (write_and_report_dir s1 _ _ Hq Hd (path_join_wallet_dir s))
    as [[_ Hw] | [Hf' _]]; [done |].
  rewrite Hk in Hf'; [done |]. rewrite length_app. simpl. lia.
Qed.

Lemma ensured_wallet_from_dig d u q s s2 :
  ensured d (u +:+ "/.dig") s s2 q ->
  free_or_dir (fs s) (q ++ ["wallets"]) ->
  free_or_dir (fs s) (q ++ ["wallets"; "test-wallet"]) ->
  exists s4, ensured (S (S d)) (u +:+ "/.dig/wallets/test-wallet") s s4
               (q ++ ["wallets"; "test-wallet"]).
Proof.
  intros H2 F3 F4.
  destruct (ensured_child d (u +:+ "/.dig") "wallets" q s s2) as [s3 H3]; try done.
  { by apply (rstrip_sep_child u ".dig"). }
  { by apply nonempty_app_r. }
  destruct (ensured_child (S d) ((u +:+ "/.dig") +:+ "/wallets") "test-wallet"
              (q ++ ["wallets"]) s s3) as [s4 H4]; try done.
  { by apply (rstrip_sep_child (u +:+ "/.dig") "wallets"). }
  { by apply nonempty_app_r. }
  { by rewrite <- app_assoc. }
  exists s4. rewrite <- app_assoc in H4. simpl in H4.
  by rewrite !app_assoc_str in H4.
Qed.

Lemma ensured_tilde d s :
  node_at (fs s) (cwd s) = Some Dir -> free_or_dir (fs s) (cwd s ++ ["~"]) ->
  exists s1, ensured (S d) "~" s s1 (cwd s ++ ["~"]).
Proof.
  intros Hc Hf.
  assert (resolve s "~" = Ok (cwd s ++ ["~"])) as Hq.
  { unfold resolve, start_dir. simpl. by rewrite Hc. }
  destruct (mkdir_exist_ok_creates "~" s _ eq_refl (snoc_nonnil _ _) Hq Hf)
    as (s1 & Hm & Hq1 & Hd1 & Hk).
  exists s1. do 3 (split; [done |]).
  intros k Hlen. apply Hk. intros ->. lia.
Qed.

Lemma resolve_tilde_inv s q :
  resolve s "~/.dig/wallets/test-wallet" = Ok q ->
  q = cwd s ++ ["~"; ".dig"; "wallets"; "test-wallet"] /\
  node_at (fs s) (cwd s ++ ["~"]) = Some Dir /\
  node_at (fs s) (cwd s ++ ["~"; ".dig"]) = Some Dir /\
  node_at (fs s) (cwd s ++ ["~"; ".dig"; "wallets"]) = Some Dir.
Proof.
  unfold resolve, start_dir. simpl.
  destruct (node_at (fs s) (cwd s)) as [[|c0]|]; try done.
  change (step (cwd s) "~") with (cwd s ++ ["~"]).
  destruct (node_at (fs s) (cwd s ++ ["~"])) as [[|c1]|] eqn:E1; try done.
  change (step (cwd s ++ ["~"]) ".dig") with ((cwd s ++ ["~"]) ++ [".dig"]).
  destruct (node_at (fs s) ((cwd s ++ ["~"]) ++ [".dig"])) as [[|c2]|] eqn:E2; try done.
  change (step ((cwd s ++ ["~"]) ++ [".dig"]) "wallets")
    with (((cwd s ++ ["~"]) ++ [".dig"]) ++ ["wallets"]).
  destruct (node_at (fs s) (((cwd s ++ ["~"]) ++ [".dig"]) ++ ["wallets"]))
    as [[|c3]|] eqn:E3; try done.
  change (step (((cwd s ++ ["~"]) ++ [".dig"]) ++ ["wallets"]) "test-wallet")
    with ((((cwd s ++ ["~"]) ++ [".dig"]) ++ ["wallets"]) ++ ["test-wallet"]).
  intros H. inversion H; subst q. rewrite <- !app_assoc in *. simpl in *. done.
Qed.

Lemma node_at_app (m : gmap (list string) node) p l :
  l <> [] -> node_at m (p ++ l) = m !! (p ++ l).
Proof. intros Hl. apply node_at_nonroot. by destruct p, l. Qed.

(** C10: when [HOME] is not set and the password database has no entry for
    the user, [expanduser] raises nothing and returns the path as it is, with
    its ["~"].  A run that returns has then made, under the working
    directory, a directory named ["~"] with [.dig/wallets/test-wallet] in it,
    and written [mnemonic.txt] there.  The run does return when the working
    directory is a directory, nothing but directories is in the way of those
    four, and no directory has the name of the file. *)
Theorem unresolved_home_tilde_directory s :
  environ s !! "HOME" = None -> getpwuid s (uid s) = None ->
  expanduser "~/.dig/wallets/test-wallet" s = (Ok "~/.dig/wallets/test-wallet", s) /\
  (forall s', main s = (Ok tt, s') ->
     fs s' !! (cwd s ++ ["~"]) = Some Dir /\
     fs s' !! (cwd s ++ ["~"; ".dig"]) = Some Dir /\
     fs s' !! (cwd s ++ ["~"; ".dig"; "wallets"]) = Some Dir /\
     fs s' !! (cwd s ++ ["~"; ".dig"; "wallets"; "test-wallet"]) = Some Dir /\
     fs s' !! (cwd s ++ ["~"; ".dig"; "wallets"; "test-wallet"; "mnemonic.txt"])
     = Some (File MNEMONIC)) /\
  (node_at (fs s) (cwd s) = Some Dir ->
   free_or_dir (fs s) (cwd s ++ ["~"]) ->
   free_or_dir (fs s) (cwd s ++ ["~"; ".dig"]) ->
   free_or_dir (fs s) (cwd s ++ ["~"; ".dig"; "wallets"]) ->
   free_or_dir (fs s) (cwd s ++ ["~"; ".dig"; "wallets"; "test-wallet"]) ->
   fs s !! (cwd s ++ ["~"; ".dig"; "wallets"; "test-wallet"; "mnemonic.txt"]) <> Some Dir ->
   exists s', main s = (Ok tt, s')).
Proof.
  intros H1 H2. pose proof (userhome_unresolved _ H1 H2) as Hu.
  assert (wallet_dir s = "~/.dig/wallets/test-wallet") as Hw
    by (unfold wallet_dir; by rewrite Hu).
  split; [by rewrite expanduser_wallet_dir, Hw |]. split.
  - intros s' H.
    apply main_inv in H as [(e & ? & _) | (s1 & q & Hm & Hq & Hd & H)]; [done |].
    destruct H as [(Hf & _ & ->) | (_ & ? & _)]; [| done].
    apply makedirs_started in Hm as (_ & Hc & _).
    rewrite Hw in Hq. apply resolve_tilde_inv in Hq as (-> & D1 & D2 & D3).
    rewrite Hc in *.
    pose proof (dirs_le_insert_file (fs s1) _ MNEMONIC (snoc_nonnil _ "mnemonic.txt") Hf)
      as Hle.
    apply Hle in D1, D2, D3, Hd. simpl.
    rewrite node_at_app in D1, D2, D3, Hd by done.
    do 4 (split; [done |]).
    rewrite <- app_assoc. simpl. apply lookup_insert_eq.
  - intros Hc F1 F2 F3 F4 Hf.
    destruct (ensured_tilde 0 (started s) Hc F1) as (s1 & E1).
    destruct (ensured_child _ "~" ".dig" _ _ _ eq_refl eq_refl eq_refl E1) as (s2 & E2).
    { simpl. by rewrite <- app_assoc. }
    destruct (ensured_wallet_from_dig _ "~" _ _ _ E2) as (s4 & E4).
    { simpl. by rewrite <- !app_assoc. }
    { simpl. by rewrite <- !app_assoc. }
    eexists. eapply (main_returns _ s s4). 
    + rewrite Hw. exact E4.
    + simpl. by rewrite <- !app_assoc.
Qed.

Lemma unresolved_home_tilde_directory_witness :
  (exists s', main st_nohome = (Ok tt, s')) /\
  fs (snd (main st_nohome))
     !! (cwd st_nohome ++ ["~"; ".dig"; "wallets"; "test-wallet"; "mnemonic.txt"])
  = Some (File MNEMONIC).
Proof.
  destruct (unresolved_home_tilde_directory st_nohome) as (_ & H & R).
  - reflexivity.
  - reflexivity.
  - split.
    + apply R; [reflexivity | left; reflexivity .. | vm_compute; discriminate].
    + apply (H (snd (main st_nohome))). vm_compute. reflexivity.
Defined.

End properties.

(** ** A run in a home directory that exists *)

Section home_runs.
Import PyStr.







End home_runs.

(** ** What a run leaves alone, and how it ends *)

Section run_outcomes.
Import PyStr.

#[local] Arguments userhome : simpl never.

(** No run of [main] touches the environment, the password database, the
    user id or the working directory. *)
Theorem main_keeps_environment s r s' :
  main s = (r, s') ->
  environ s' = environ s /\ passwd s' = passwd s /\ uid s' = uid s /\ cwd s' = cwd s.
Proof.
  intros H. apply main_inv in H as [(e & _ & Hm) | (s1 & q & Hm & _ & _ & H)].
  - by apply makedirs_started in Hm as (He & _).
  - apply makedirs_started in Hm as (He & _).
    destruct H as [(_ & _ & ->) | (_ & _ & ->)]; exact He.
Qed.

Lemma main_keeps_environment_witness :
  cwd (snd (main st_clean)) = cwd st_clean.
Proof.
  apply (main_keeps_environment st_clean (Ok tt) (snd (main st_clean))).
  vm_compute. reflexivity.
Defined.





End run_outcomes.

(** ** Runs that find something in the way *)

Section obstacles.
Import PyStr.

#[local] Arguments userhome : simpl never.

Lemma mkdir_exist_ok_on_file name s c :
  mkdir_name name = name -> os_stat s name = Ok (File c) ->
  mkdir_exist_ok name true s = (Raise FileExistsError, s).
Proof.
  intros Hname Hst. destruct (os_stat_inv _ _ _ Hst) as (q & Hq & Hn).
  unfold mkdir_exist_ok, try_except, os_mkdir. rewrite Hname, Hq, Hn. simpl.
  unfold bind, path_isdir. by rewrite Hst.
Qed.

Lemma makedirs_on_file name s c :
  mkdir_name name = name -> os_stat s name = Ok (File c) ->
  makedirs name true s = (Raise FileExistsError, s).
Proof.
  intros Hname Hst. unfold makedirs. rewrite makedirs_rec_S.
  destruct (makedirs_head_tail name) as [head tail] eqn:E.
  destruct (nonempty head && nonempty tail) eqn:C;
    [| by eapply mkdir_exist_ok_on_file].
  apply andb_true_iff in C as [Ch Ct].
  destruct (os_stat_inv _ _ _ Hst) as (q & Hq & _).
  rewrite (stat_head _ _ _ _ _ E Ch Ct Hq). by eapply mkdir_exist_ok_on_file.
Qed.

Lemma main_makedirs_raises s e s1 :
  makedirs (wallet_dir s) true (started s) = (Raise e, s1) ->
  main s = (Raise e, s1) /\ script s = (1%Z, s1).
Proof.
  intros Hm. assert (main s = (Raise e, s1)) as Hmain.
  { rewrite main_steps. unfold bind at 1. by rewrite Hm. }
  split; [done |]. unfold script. by rewrite Hmain.
Qed.

(** When a regular file has the name of the wallet directory, the run ends
    with [FileExistsError] and exit status 1, having changed nothing in the
    file system. *)
Theorem wallet_dir_is_file s home c :
  userhome s "" = Some home ->
  os_stat s (home +:+ "/.dig/wallets/test-wallet") = Ok (File c) ->
  main s = (Raise FileExistsError, started s) /\
  script s = (1%Z, started s) /\ fs (started s) = fs s.
Proof.
  intros Hh Hst.
  change "/.dig/wallets/test-wallet" with (String "/" ".dig/wallets/test-wallet") in Hst.
  rewrite os_stat_rstrip in Hst.
  change (String "/" ".dig/wallets/test-wallet") with "/.dig/wallets/test-wallet" in Hst.
  rewrite <- (wallet_dir_home _ _ Hh) in Hst.
  destruct (wallet_dir_form s) as [u Hu].
  assert (mkdir_name (wallet_dir s) = wallet_dir s) as Hname
    by (rewrite Hu; apply mkdir_name_wallet).
  pose proof (makedirs_on_file _ (started s) c Hname Hst) as Hm.
  apply main_makedirs_raises in Hm as [H1 H2]. done.
Qed.

Lemma wallet_dir_is_file_witness :
  main st_wallet_is_file = (Raise FileExistsError, started st_wallet_is_file).
Proof.
  apply (wallet_dir_is_file st_wallet_is_file "/tmp/fakehome" "").
  - reflexivity.
  - vm_compute. reflexivity.
Defined.

(** When a directory has the name of the marker file, the run ends with
    [IsADirectoryError] and exit status 1, having changed nothing in the
    file system. *)
Theorem marker_is_directory s home :
  userhome s "" = Some home ->
  os_stat s (home +:+ "/.dig/wallets/test-wallet/mnemonic.txt") = Ok Dir ->
  main s = (Raise IsADirectoryError, started s) /\
  script s = (1%Z, started s) /\ fs (started s) = fs s.
Proof.
  intros Hh Hst. rewrite (marker_path_home _ _ Hh) in Hst.
  apply os_stat_inv in Hst as (qf & Hqf & Hn).
  destruct (wallet_dir_form s) as [u Hu].
  assert (nonempty (wallet_dir s) = true) as Hne by (rewrite Hu; by apply nonempty_app_r).
  pose proof (resolve_parent _ _ _ _ Hne Hqf) as Hd.
  apply os_stat_inv in Hd as (q & Hq & Hd).
  rewrite (resolve_marker _ _ _ Hq Hd) in Hqf. inversion Hqf; subst qf.
  rewrite node_at_snoc in Hn.
  assert (main s = (Raise IsADirectoryError, started s)) as Hmain.
  { rewrite main_steps. unfold bind at 1, makedirs.
    rewrite makedirs_rec_existing by (by eapply (os_stat_intro s)).
    destruct (write_and_report_dir (started s) _ _ Hq Hd (path_join_wallet_dir s))
      as [[Hf _] | [_ Hw]]; done. }
  split; [done |]. unfold script. by rewrite Hmain.
Qed.

Lemma marker_is_directory_witness :
  main st_marker_is_dir = (Raise IsADirectoryError, started st_marker_is_dir).
Proof.
  apply (marker_is_directory st_marker_is_dir "/tmp/fakehome").
  - reflexivity.
  - vm_compute. reflexivity.
Defined.

End obstacles.

(** ** A regular file among the ancestors *)

Section under_file.
Import PyStr.

#[local] Arguments userhome : simpl never.





Section below.
Variables (s : state) (p : string) (c : string).
Hypothesis Hfile : os_stat s p = Ok (File c).





End below.



End under_file.

(** ** The exceptions of a run *)

Section run_errors.
Import PyStr.

#[local] Arguments userhome : simpl never.





End run_errors.

(** ** Runs with an absolute home directory *)

Section absolute_home.
Import PyStr.

#[local] Arguments userhome : simpl never.

Lemma cwd_free_bind {A B} (m : M A) (k : A -> M B) :
  cwd_free m -> (forall a, cwd_free (k a)) -> cwd_free (bind m k).
Proof.
  intros Hm Hk s c. unfold bind. rewrite Hm.
  destruct (m s) as [[a|e] s']; [apply Hk | done].
Qed.

Lemma cwd_free_try_except {A} (m : M A) handles (h : exn -> M A) :
  cwd_free m -> (forall e, cwd_free (h e)) -> cwd_free (try_except m handles h).
Proof.
  intros Hm Hh s c. unfold try_except. rewrite Hm.
  destruct (m s) as [[a|e] s']; [done |]. destruct (handles e); [apply Hh | done].
Qed.

Lemma cwd_free_ret {A} (a : A) : cwd_free (ret a).
Proof. by intros s c. Qed.

Lemma cwd_free_raise {A} e : cwd_free (@raise A e).
Proof. by intros s c. Qed.

Lemma cwd_free_print x : cwd_free (print x).
Proof. by intros s c. Qed.

Lemma cwd_free_file_write f data : cwd_free (file_write f data).
Proof.
  intros s c. unfold file_write. simpl. by destruct (fs s !! f) as [[|x]|].
Qed.

Lemma resolve_absolute s c p :
  startswith_sep p = true -> resolve (set_cwd s c) p = resolve s p.
Proof. intros H. unfold resolve, start_dir. by rewrite H. Qed.

Lemma os_stat_absolute s c p :
  startswith_sep p = true -> os_stat (set_cwd s c) p = os_stat s p.
Proof. intros H. unfold os_stat. by rewrite resolve_absolute. Qed.

Lemma cwd_free_path_exists p : startswith_sep p = true -> cwd_free (path_exists p).
Proof. intros H s c. unfold path_exists. by rewrite os_stat_absolute. Qed.

Lemma cwd_free_path_isdir p : startswith_sep p = true -> cwd_free (path_isdir p).
Proof. intros H s c. unfold path_isdir. by rewrite os_stat_absolute. Qed.

Lemma mkdir_name_absolute p :
  startswith_sep p = true -> startswith_sep (mkdir_name p) = true.
Proof.
  intros H. unfold mkdir_name. destruct (rstrip_sep p) eqn:E; [done |].
  rewrite <- E, startswith_sep_rstrip; [done | by rewrite E].
Qed.

Lemma cwd_free_os_mkdir p : startswith_sep p = true -> cwd_free (os_mkdir p).
Proof.
  intros H s c. unfold os_mkdir.
  rewrite (resolve_absolute _ _ _ (mkdir_name_absolute _ H)). simpl.
  destruct (resolve s (mkdir_name p)) as [q|e]; [| done].
  by destruct (node_at (fs s) q).
Qed.

Lemma cwd_free_mkdir_exist_ok name ok :
  startswith_sep name = true -> cwd_free (mkdir_exist_ok name ok).
Proof.
  intros H. unfold mkdir_exist_ok.
  apply cwd_free_try_except; [by apply cwd_free_os_mkdir |].
  intros e. apply cwd_free_bind; [by apply cwd_free_path_isdir |].
  intros isd. destruct (negb ok || negb isd);
    [apply cwd_free_raise | apply cwd_free_ret].
Qed.

Lemma head_absolute name head tail :
  makedirs_head_tail name = (head, tail) ->
  nonempty head = true -> nonempty tail = true ->
  startswith_sep name = true -> startswith_sep head = true.
Proof.
  intros E Hh Ht Hn.
  destruct (makedirs_head_tail_cases _ _ _ E Hh Ht) as [Hall | [x Hx]].
  - destruct head as [|a head]; [done |]. simpl in *.
    by apply andb_true_iff in Hall as [Ha _].
  - by rewrite Hx, startswith_sep_app in Hn.
Qed.

Lemma cwd_free_makedirs_rec d name ok :
  startswith_sep name = true -> cwd_free (makedirs_rec d name ok).
Proof.
  revert name. induction d as [|d IH]; intros name Hn; [apply cwd_free_raise |].
  simpl. destruct (makedirs_head_tail name) as [head tail] eqn:E.
  destruct (nonempty head && nonempty tail) eqn:C;
    [| by apply cwd_free_mkdir_exist_ok].
  apply andb_true_iff in C as [Ch Ct].
  pose proof (head_absolute _ _ _ E Ch Ct Hn) as Hhead.
  apply cwd_free_bind; [by apply cwd_free_path_exists |].
  intros ex. destruct (negb ex); [| by apply cwd_free_mkdir_exist_ok].
  apply cwd_free_bind.
  - apply cwd_free_try_except; [by apply IH |]. intros e. apply cwd_free_ret.
  - intros _. destruct (bool_decide (tail = "."));
      [apply cwd_free_ret | by apply cwd_free_mkdir_exist_ok].
Qed.

Lemma cwd_free_with_open_w {A} p (body : list string -> M A) :
  startswith_sep p = true -> (forall f, cwd_free (body f)) ->
  cwd_free (with_open_w p body).
Proof.
  intros H Hb s c. unfold with_open_w, py_open_w.
  rewrite (resolve_absolute _ _ _ H). simpl.
  destruct (resolve s p) as [q|e]; [| done].
  destruct (node_at (fs s) q) as [[|x]|]; [done | |];
    change (set_fs (set_cwd s c) (<[q := File ""]> (fs s)))
      with (set_cwd (set_fs s (<[q := File ""]> (fs s))) c);
    rewrite Hb; by destruct (body q _).
Qed.

Lemma cwd_free_write_and_report wd :
  startswith_sep wd = true -> cwd_free (write_and_report wd).
Proof.
  intros H. unfold write_and_report.
  assert (startswith_sep (path_join wd "mnemonic.txt") = true) as Hj.
  { unfold path_join. simpl. destruct (_ || _);
      by rewrite startswith_sep_app by (by destruct wd). }
  apply cwd_free_bind.
  - apply cwd_free_with_open_w; [done |]. intros f. apply cwd_free_file_write.
  - intros _. apply cwd_free_bind; intros; apply cwd_free_print.
Qed.

Lemma wallet_dir_absolute s home :
  userhome s "" = Some home -> startswith_sep home = true ->
  startswith_sep (wallet_dir s) = true.
Proof.
  intros Hh Ha. rewrite (wallet_dir_home _ _ Hh).
  destruct (nonempty (rstrip_sep home)) eqn:Hne.
  - by rewrite startswith_sep_app, startswith_sep_rstrip.
  - by rewrite (nonempty_false _ Hne).
Qed.

(** With an absolute home directory a run does not depend on the working
    directory it is started from: the same result, the same file system
    and the same output. *)
Theorem main_cwd_independent s c home :
  userhome s "" = Some home -> startswith_sep home = true ->
  fst (main (set_cwd s c)) = fst (main s) /\
  fs (snd (main (set_cwd s c))) = fs (snd (main s)) /\
  stdout (snd (main (set_cwd s c))) = stdout (snd (main s)).
Proof.
  intros Hh Ha. pose proof (wallet_dir_absolute _ _ Hh Ha) as Hw.
  assert (main (set_cwd s c) = (let (r, s') := main s in (r, set_cwd s' c))) as H.
  { rewrite !main_steps.
    change (wallet_dir (set_cwd s c)) with (wallet_dir s).
    change (started (set_cwd s c)) with (set_cwd (started s) c).
    apply cwd_free_bind; [by apply cwd_free_makedirs_rec |].
    intros _. by apply cwd_free_write_and_report. }
  rewrite H. by destruct (main s).
Qed.

Lemma main_cwd_independent_witness :
  fs (snd (main (set_cwd st_clean ["tmp"; "elsewhere"]))) = fs (snd (main st_clean)).
Proof.
  apply (main_cwd_independent st_clean ["tmp"; "elsewhere"] "/tmp/fakehome");
    reflexivity.
Defined.

End absolute_home.
